(** * localtuya switch platform: the status cache and the switch entity

    A shallow embedding of [custom_components/localtuya/switch.py]:
    the class [TuyaCache] (a time-limited memo over a pytuya
    [OutletDevice], with retry loops on the read and the write path) and
    the class [TuyaDevice] (the Home Assistant switch entity reading
    from it).

    Conventions.
    - Python values are the inductive [pyval]; floats are idealised as
      rationals ([Q]), reduced with [Qred] after a division.
    - A Python call either returns or raises: [outcome]. Every exception
      modelled here is caught by [except Exception].
    - The device handle ([pytuya.OutletDevice]) is outside this file's
      source; it is a hidden state with two operations, the class
      [DeviceHandle].
    - [time()] readings are arguments of the functions that read the
      clock; [sleep], [print], the logger, the lock and the calls of the
      handle are recorded in a trace, newest event first.
    - One thread at a time runs the methods of the first part; the
      module [Threads] reads the same two methods statement by statement
      for several threads on one cache. *)

Set Warnings "-register-all".
From Stdlib Require Import ZArith QArith String List Bool Lia.
From stdpp Require Import base list.
Import ListNotations.

Local Open Scope string_scope.
Local Open Scope list_scope.

(** ** Python values *)

Inductive pyval : Type :=
| PyNone
| PyBool (b : bool)
| PyInt (z : Z)
| PyFloat (q : Q)
| PyStr (s : string)
| PyDict (d : list (string * pyval)).

Inductive exn : Type :=
| ConnectionError (msg : string)
| KeyError (key : string)
| TypeError
| OtherException (name : string).

Inductive outcome (A : Type) : Type :=
| Returned (a : A)
| Raised (e : exn).

Arguments Returned {A} a.
Arguments Raised {A} e.

(** [bool(v)]: the truth value Python gives to [v] in [if v] and [not v]. *)
Definition truthy (v : pyval) : bool :=
  match v with
  | PyNone => false
  | PyBool b => b
  | PyInt z => negb (z =? 0)%Z
  | PyFloat q => negb (Qeq_bool q 0)
  | PyStr s => negb (s =? "")%string
  | PyDict d => match d with [] => false | _ :: _ => true end
  end.

Fixpoint dict_get (d : list (string * pyval)) (k : string) : option pyval :=
  match d with
  | [] => None
  | (k', v) :: d' => if (k' =? k)%string then Some v else dict_get d' k
  end.

(** [v[k]] for a string key [k]. *)
Definition getitem (v : pyval) (k : string) : outcome pyval :=
  match v with
  | PyDict d =>
      match dict_get d k with
      | Some x => Returned x
      | None => Raised (KeyError k)
      end
  | _ => Raised TypeError
  end.

(** [v["dps"][k]] *)
Definition dps_item (v : pyval) (k : string) : outcome pyval :=
  match getitem v "dps" with
  | Returned dps => getitem dps k
  | Raised e => Raised e
  end.

(** [v / 10], Python 3 true division. *)
Definition div10 (v : pyval) : outcome pyval :=
  match v with
  | PyInt z => Returned (PyFloat (Qred (inject_Z z / 10)))
  | PyBool b => Returned (PyFloat (Qred (inject_Z (Z.b2z b) / 10)))
  | PyFloat q => Returned (PyFloat (Qred (q / 10)))
  | _ => Raised TypeError
  end.

(** [a > b] on clock readings. *)
Definition Qgtb (a b : Q) : bool := negb (Qle_bool a b).

(** ** Observable effects *)

Inductive event : Type :=
| EvAcquire
| EvRelease
| EvFetch
| EvWrite (state : bool) (switchid : string)
| EvSleep (seconds : Q)
| EvPrint (msg : string)
| EvLogError (msg : string).

Definition is_fetch (e : event) : bool :=
  match e with EvFetch => true | _ => false end.

Definition is_write (e : event) : bool :=
  match e with EvWrite _ _ => true | _ => false end.

Definition fetches (t : list event) : nat := length (List.filter is_fetch t).
Definition writes (t : list event) : nat := length (List.filter is_write t).

(** ** class TuyaCache: the fields assigned in [__init__] *)

Record TuyaCache : Type := mkCache {
  _cached_status : pyval;
  _cached_status_time : Q
}.

(** [__init__]: [_cached_status = ""], [_cached_status_time = 0]. *)
Definition TuyaCache_init : TuyaCache :=
  {| _cached_status := PyStr ""; _cached_status_time := 0 |}.

(** The test of [status()]:
    [not self._cached_status or now - self._cached_status_time > 15]. *)
Definition needs_refresh (c : TuyaCache) (now : Q) : bool :=
  negb (truthy (_cached_status c)) || Qgtb (now - _cached_status_time c) 15.

(** ** class TuyaDevice: the fields assigned in [__init__]

    [_device] is the [TuyaCache] shared with the other entities of the
    same physical device; it lives in the world, not in the entity. *)

Record TuyaDevice : Type := mkDevice {
  _name : string;
  _available : bool;
  _switch_id : string;
  _attr_current : option string;
  _attr_consumption : option string;
  _attr_voltage : option string;
  _status : pyval;
  _state : pyval
}.

Definition TuyaDevice_init (friendly_name switchid : string)
           (attr_current attr_consumption attr_voltage : option string)
  : TuyaDevice :=
  {| _name := friendly_name;
     _available := false;
     _switch_id := switchid;
     _attr_current := attr_current;
     _attr_consumption := attr_consumption;
     _attr_voltage := attr_voltage;
     _status := PyNone;
     _state := PyNone |}.

(** The names imported from [.const]; only their being distinct
    matters here. *)
Inductive attr_name : Type :=
| ATTR_CURRENT
| ATTR_CURRENT_CONSUMPTION
| ATTR_VOLTAGE.

Definition attr_name_eqb (a b : attr_name) : bool :=
  match a, b with
  | ATTR_CURRENT, ATTR_CURRENT
  | ATTR_CURRENT_CONSUMPTION, ATTR_CURRENT_CONSUMPTION
  | ATTR_VOLTAGE, ATTR_VOLTAGE => true
  | _, _ => false
  end.

(** [attrs[name] = v] on a dict kept in insertion order. *)
Fixpoint attrs_set (attrs : list (attr_name * pyval)) (name : attr_name)
         (v : pyval) : list (attr_name * pyval) :=
  match attrs with
  | [] => [(name, v)]
  | (n, x) :: rest =>
      if attr_name_eqb n name then (n, v) :: rest
      else (n, x) :: attrs_set rest name v
  end.

(** [if key:] for a key that is [None] or a string. *)
Definition configured (key : option string) : option string :=
  match key with
  | Some k => if (k =? "")%string then None else Some k
  | None => None
  end.

Definition obind {A B} (r : outcome A) (k : A -> outcome B) : outcome B :=
  match r with
  | Returned a => k a
  | Raised e => Raised e
  end.

(** The property [device_state_attributes]. *)
Definition device_state_attributes (self : TuyaDevice)
  : outcome (list (attr_name * pyval)) :=
  let attrs := [] in
  obind
    (match configured (_attr_current self) with
     | Some k =>
         obind (dps_item (_status self) k) (fun v =>
         Returned (attrs_set attrs ATTR_CURRENT v))
     | None => Returned attrs
     end) (fun attrs =>
  obind
    (match configured (_attr_consumption self) with
     | Some k =>
         obind (dps_item (_status self) k) (fun v =>
         obind (div10 v) (fun x =>
         Returned (attrs_set attrs ATTR_CURRENT_CONSUMPTION x)))
     | None => Returned attrs
     end) (fun attrs =>
  obind
    (match configured (_attr_voltage self) with
     | Some k =>
         obind (dps_item (_status self) k) (fun v =>
         obind (div10 v) (fun x =>
         Returned (attrs_set attrs ATTR_VOLTAGE x)))
     | None => Returned attrs
     end) (fun attrs =>
  Returned attrs))).

Definition is_on (self : TuyaDevice) : pyval := _state self.

Definition available (self : TuyaDevice) : bool := _available self.

Definition set_available (b : bool) (self : TuyaDevice) : TuyaDevice :=
  {| _name := _name self;
     _available := b;
     _switch_id := _switch_id self;
     _attr_current := _attr_current self;
     _attr_consumption := _attr_consumption self;
     _attr_voltage := _attr_voltage self;
     _status := _status self;
     _state := _state self |}.

Definition set_status_field (s : pyval) (self : TuyaDevice) : TuyaDevice :=
  {| _name := _name self;
     _available := _available self;
     _switch_id := _switch_id self;
     _attr_current := _attr_current self;
     _attr_consumption := _attr_consumption self;
     _attr_voltage := _attr_voltage self;
     _status := s;
     _state := _state self |}.

Definition set_state_field (v : pyval) (self : TuyaDevice) : TuyaDevice :=
  {| _name := _name self;
     _available := _available self;
     _switch_id := _switch_id self;
     _attr_current := _attr_current self;
     _attr_consumption := _attr_consumption self;
     _attr_voltage := _attr_voltage self;
     _status := _status self;
     _state := v |}.

(** The invariant of the cache entry: the time stamp is unset ([0])
    exactly when the blob is empty (false in [if]). *)
Definition entry_inv (c : TuyaCache) : Prop :=
  (_cached_status_time c == 0)%Q <-> truthy (_cached_status c) = false.

(** Clock readings of successive calls less than 15 seconds apart. *)
Fixpoint spaced_under_15 (prev : Q) (clock : list (Q * Q)) : Prop :=
  match clock with
  | [] => True
  | (now, after) :: rest =>
      (prev <= now /\ now - prev < 15 /\ now <= after)%Q
      /\ spaced_under_15 now rest
  end.

(** ** The device handle

    [pytuya.OutletDevice] as the cache uses it: a hidden state, the
    attribute [address], and the methods [status()] and
    [set_status(state, switchid)], each of which returns or raises and
    leaves the handle in a new state. *)

Class DeviceHandle (Handle : Type) : Type := {
  address : string;
  dev_status : Handle -> outcome pyval * Handle;
  dev_set_status : bool -> string -> Handle -> outcome pyval * Handle
}.

(** A scripted handle: it replays a list of fetch outcomes and a list
    of write outcomes; once a script is used up the operation raises. *)

Record Script : Type := mkScript {
  fetch_script : list (outcome pyval);
  write_script : list (outcome pyval)
}.

Definition timeout : exn := OtherException "socket.timeout".

Definition script_status (h : Script) : outcome pyval * Script :=
  match fetch_script h with
  | [] => (Raised timeout, h)
  | r :: rest => (r, {| fetch_script := rest; write_script := write_script h |})
  end.

Definition script_set_status (state : bool) (switchid : string) (h : Script)
  : outcome pyval * Script :=
  match write_script h with
  | [] => (Raised timeout, h)
  | r :: rest => (r, {| fetch_script := fetch_script h; write_script := rest |})
  end.

#[export] Instance ScriptHandle : DeviceHandle Script := {
  address := "192.168.0.1";
  dev_status := script_status;
  dev_set_status := script_set_status
}.

(** A steady handle: every fetch returns the same report, every write
    is accepted; the state counts the calls. *)

Record Steady : Type := mkSteady { polls : nat }.

Definition steady_report : pyval :=
  PyDict [("devId", PyStr "12345678912345671234");
          ("dps", PyDict [("1", PyBool false); ("7", PyBool true)])].

#[export] Instance SteadyHandle : DeviceHandle Steady := {
  address := "192.168.0.2";
  dev_status := fun h => (Returned steady_report, mkSteady (S (polls h)));
  dev_set_status := fun _ _ h => (Returned PyNone, mkSteady (S (polls h)))
}.

(** ** The world and the monad of Python calls

    Everything a call can read or change: the handle, the one cache
    object shared by the entities of a device, and the trace. *)

Record World (Handle : Type) : Type := mkWorld {
  device : Handle;
  cache : TuyaCache;
  trace : list event
}.

Arguments mkWorld {Handle} _ _ _.
Arguments device {Handle} _.
Arguments cache {Handle} _.
Arguments trace {Handle} _.

Definition M (Handle A : Type) : Type := World Handle -> outcome A * World Handle.

Definition ret {Handle A} (a : A) : M Handle A := fun w => (Returned a, w).

Definition raise {Handle A} (e : exn) : M Handle A := fun w => (Raised e, w).

Definition bind {Handle A B} (m : M Handle A) (k : A -> M Handle B)
  : M Handle B :=
  fun w =>
    match m w with
    | (Returned a, w') => k a w'
    | (Raised e, w') => (Raised e, w')
    end.

Declare Scope py_scope.
Delimit Scope py_scope with py.

Notation "x <- m ;; k" := (bind m (fun x => k))
  (at level 100, m at next level, right associativity) : py_scope.
Notation "m ;; k" := (bind m (fun _ => k))
  (at level 100, right associativity) : py_scope.

(** [try: body  except Exception: handler] *)
Definition try_except {Handle A} (body : M Handle A)
           (handler : exn -> M Handle A) : M Handle A :=
  fun w =>
    match body w with
    | (Returned a, w') => (Returned a, w')
    | (Raised e, w') => handler e w'
    end.

(** [try: body  finally: fin], for a [fin] that does not raise. *)
Definition try_finally {Handle A} (body : M Handle A)
           (fin : World Handle -> World Handle) : M Handle A :=
  fun w => let '(r, w') := body w in (r, fin w').

Definition emit {Handle} (e : event) : World Handle -> World Handle :=
  fun w => {| device := device w; cache := cache w; trace := e :: trace w |}.

Definition do_emit {Handle} (e : event) : M Handle unit :=
  fun w => (Returned tt, emit e w).

Definition get_cache {Handle} : M Handle TuyaCache :=
  fun w => (Returned (cache w), w).

(** [self._cached_status = s] *)
Definition set_cached_status {Handle} (s : pyval) : M Handle unit :=
  fun w => (Returned tt,
            {| device := device w;
               cache := {| _cached_status := s;
                           _cached_status_time := _cached_status_time (cache w) |};
               trace := trace w |}).

(** [self._cached_status_time = t] *)
Definition set_cached_status_time {Handle} (t : Q) : M Handle unit :=
  fun w => (Returned tt,
            {| device := device w;
               cache := {| _cached_status := _cached_status (cache w);
                           _cached_status_time := t |};
               trace := trace w |}).

Section Cache.

Context {Handle : Type} `{!DeviceHandle Handle}.

Local Open Scope py_scope.

(** [self._device.status()] *)
Definition device_status : M Handle pyval :=
  fun w =>
    let '(r, h) := dev_status (device w) in
    (r, {| device := h; cache := cache w; trace := EvFetch :: trace w |}).

(** [self._device.set_status(state, switchid)] *)
Definition device_set_status (state : bool) (switchid : string)
  : M Handle pyval :=
  fun w =>
    let '(r, h) := dev_set_status state switchid (device w) in
    (r, {| device := h; cache := cache w;
           trace := EvWrite state switchid :: trace w |}).

(** *** TuyaCache.__get_status

    [for i in range(5)]: the loop over the remaining indices. Running
    off the end of the loop is Python's implicit [return None]. When
    the [except] branch ends without raising, control goes to the next
    turn; the remaining turns therefore sit at the end of the handler
    (what they raise is not caught by this turn's [try], and neither is
    what a handler raises). *)
Fixpoint get_status_loop (range : list nat) : M Handle pyval :=
  match range with
  | [] => ret PyNone
  | i :: rest =>
      try_except
        (status <- device_status ;; ret status)
        (fun _ =>
           do_emit (EvPrint ("Failed to update status of device ["
                             ++ address ++ "]")) ;;
           do_emit (EvSleep 1) ;;
           if (i + 1 =? 3)%nat then
             do_emit (EvLogError ("Failed to update status of device "
                                  ++ address)) ;;
             raise (ConnectionError "Failed to update status .")
           else get_status_loop rest)
  end.

Definition __get_status : M Handle pyval := get_status_loop (seq 0 5).

(** *** TuyaCache.set_status *)
Fixpoint set_status_loop (state : bool) (switchid : string)
         (range : list nat) : M Handle pyval :=
  match range with
  | [] => ret PyNone
  | i :: rest =>
      try_except
        (device_set_status state switchid)
        (fun _ =>
           do_emit (EvPrint ("Failed to set status of device ["
                             ++ address ++ "]")) ;;
           if (i + 1 =? 3)%nat then
             do_emit (EvLogError ("Failed to set status of device "
                                  ++ address)) ;;
             ret PyNone
           else set_status_loop state switchid rest)
  end.

Definition set_status (state : bool) (switchid : string) : M Handle pyval :=
  set_cached_status (PyStr "") ;;
  set_cached_status_time 0 ;;
  set_status_loop state switchid (seq 0 5).

(** *** TuyaCache.status

    [now] is the reading of [time()] on entry, [after] the reading
    taken once a fetch has returned. *)
Definition status (now after : Q) : M Handle pyval :=
  do_emit EvAcquire ;;
  try_finally
    (c <- get_cache ;;
     (if needs_refresh c now then
        do_emit (EvSleep 0.5) ;;
        s <- __get_status ;;
        set_cached_status s ;;
        set_cached_status_time after
      else ret tt) ;;
     c' <- get_cache ;;
     ret (_cached_status c'))
    (emit EvRelease).

(** *** TuyaDevice.update

    The assignments made in the [try] body before an exception stay. *)
Definition update (now after : Q) (self : TuyaDevice)
  : World Handle -> TuyaDevice * World Handle :=
  fun w =>
    match status now after w with
    | (Raised _, w') => (set_available false self, w')
    | (Returned s, w') =>
        let self := set_status_field s self in
        match dps_item (_status self) (_switch_id self) with
        | Raised _ => (set_available false self, w')
        | Returned v => (set_available true (set_state_field v self), w')
        end
    end.

(** *** TuyaDevice.turn_on, TuyaDevice.turn_off

    The call of [set_status] is a statement: its value is dropped and
    the method returns [None]. *)
Definition turn_on (self : TuyaDevice) : M Handle pyval :=
  set_status true (_switch_id self) ;;
  ret PyNone.

Definition turn_off (self : TuyaDevice) : M Handle pyval :=
  set_status false (_switch_id self) ;;
  ret PyNone.

(** *** Runs of the handle and of the cache *)

(** What [__get_status] raises. *)
Definition msg_update : exn := ConnectionError "Failed to update status .".

(** The world after a fetch has raised and the [except] branch of
    [__get_status] has printed and slept. *)
Definition after_failure (h : Handle) (w : World Handle) : World Handle :=
  emit (EvSleep 1)
    (emit (EvPrint ("Failed to update status of device [" ++ address ++ "]"))
       (mkWorld h (cache w) (EvFetch :: trace w))).

(** The world after a write has raised and the [except] branch of
    [set_status] has printed. *)
Definition after_write_failure (state : bool) (switchid : string)
           (h : Handle) (w : World Handle) : World Handle :=
  emit (EvPrint ("Failed to set status of device [" ++ address ++ "]"))
    (mkWorld h (cache w) (EvWrite state switchid :: trace w)).

(** A handle whose every reply to [status()] is a non-empty blob. *)
Definition fetches_nonempty : Prop :=
  forall (h h' : Handle) (b : pyval),
    dev_status h = (Returned b, h') -> truthy b = true.

(** The first two statements of [set_status]. *)
Definition invalidated (w : World Handle) : World Handle :=
  mkWorld (device w) TuyaCache_init (trace w).

(** The handle after [k] fetches that all raise, if they do. *)
Fixpoint fetch_fails (k : nat) (h : Handle) : option Handle :=
  match k with
  | O => Some h
  | S k' =>
      match dev_status h with
      | (Raised _, h') => fetch_fails k' h'
      | (Returned _, _) => None
      end
  end.

(** The handle after [k] writes that all raise, if they do. *)
Fixpoint write_fails (state : bool) (switchid : string) (k : nat) (h : Handle)
  : option Handle :=
  match k with
  | O => Some h
  | S k' =>
      match dev_set_status state switchid h with
      | (Raised _, h') => write_fails state switchid k' h'
      | (Returned _, _) => None
      end
  end.

(** A sequence of [status()] calls, one per pair of clock readings. *)
Fixpoint status_calls (clock : list (Q * Q)) (w : World Handle)
  : list (outcome pyval) * World Handle :=
  match clock with
  | [] => ([], w)
  | (now, after) :: rest =>
      let '(r, w1) := status now after w in
      let '(rs, w2) := status_calls rest w1 in
      (r :: rs, w2)
  end.

End Cache.

(** ** Several callers on one cache

    A small-step reading of [TuyaCache.status] and [TuyaCache.set_status]
    for threads that share one cache object and one lock. Each thread has
    a program point named after the statement it is about to run; one
    step runs that statement. A call of the handle takes two steps (the
    call is issued, the reply arrives), so two calls can be in flight
    together. The scheduler supplies, with each step, the clock reading
    and the handle's reply that the statement may consume. *)

Module Threads.

Inductive pc : Type :=
| StatusAcquire                       (* self._lock.acquire() *)
| StatusTest                          (* now = time(); if not ... or ... > 15 *)
| StatusSettle                        (* sleep(0.5) *)
| GetCall (i : nat)                   (* for i in range(5): self._device.status() *)
| GetReply (i : nat)                  (* the fetch is in flight *)
| GetExcept (i : nat)                 (* print; sleep(1.0); if i + 1 == 3 *)
| StatusStore (s : pyval)             (* self._cached_status = ... *)
| StatusStamp                         (* self._cached_status_time = time() *)
| StatusReturn                        (* return self._cached_status *)
| StatusRelease (r : outcome pyval)   (* finally: self._lock.release() *)
| SetClearStatus (state : bool) (switchid : string)
                                      (* self._cached_status = "" *)
| SetClearTime (state : bool) (switchid : string)
                                      (* self._cached_status_time = 0 *)
| SetCall (i : nat) (state : bool) (switchid : string)
                                      (* for i in range(5): self._device.set_status(..) *)
| SetReply (i : nat) (state : bool) (switchid : string)
                                      (* the write is in flight *)
| SetExcept (i : nat) (state : bool) (switchid : string)
                                      (* print; if i + 1 == 3 *)
| Finished (r : outcome pyval).

(** The methods a caller can enter. *)
Inductive call : Type :=
| CallStatus
| CallSetStatus (state : bool) (switchid : string).

Definition entry_point (c : call) : pc :=
  match c with
  | CallStatus => StatusAcquire
  | CallSetStatus state switchid => SetClearStatus state switchid
  end.

Record sys : Type := mkSys {
  lock : option nat;        (* the thread that holds [self._lock] *)
  shared : TuyaCache;       (* the fields of the one cache object *)
  threads : list pc
}.

Record input : Type := mkInput {
  reading : Q;              (* what [time()] returns now *)
  reply : outcome pyval     (* what the handle answers now *)
}.

Definition start (c : TuyaCache) (calls : list call) : sys :=
  {| lock := None; shared := c; threads := map entry_point calls |}.

Definition goto (t : nat) (p : pc) (s : sys) : sys :=
  {| lock := lock s; shared := shared s; threads := <[t := p]> (threads s) |}.

Definition with_lock (o : option nat) (s : sys) : sys :=
  {| lock := o; shared := shared s; threads := threads s |}.

Definition with_shared (c : TuyaCache) (s : sys) : sys :=
  {| lock := lock s; shared := c; threads := threads s |}.

(** One statement of thread [t]; [None] when [t] cannot move (it waits
    for the lock, it has finished, or there is no such thread). *)
Definition step (t : nat) (i : input) (s : sys) : option sys :=
  match threads s !! t with
  | None => None
  | Some p =>
      match p with
      | StatusAcquire =>
          match lock s with
          | None => Some (goto t StatusTest (with_lock (Some t) s))
          | Some _ => None
          end
      | StatusTest =>
          if needs_refresh (shared s) (reading i)
          then Some (goto t StatusSettle s)
          else Some (goto t StatusReturn s)
      | StatusSettle => Some (goto t (GetCall 0) s)
      | GetCall k =>
          if (k <? 5)%nat then Some (goto t (GetReply k) s)
          else Some (goto t (StatusStore PyNone) s)
      | GetReply k =>
          match reply i with
          | Returned v => Some (goto t (StatusStore v) s)
          | Raised _ => Some (goto t (GetExcept k) s)
          end
      | GetExcept k =>
          if (k + 1 =? 3)%nat
          then Some (goto t (StatusRelease
                               (Raised (ConnectionError
                                          "Failed to update status ."))) s)
          else Some (goto t (GetCall (k + 1)) s)
      | StatusStore v =>
          Some (goto t StatusStamp
                  (with_shared {| _cached_status := v;
                                  _cached_status_time :=
                                    _cached_status_time (shared s) |} s))
      | StatusStamp =>
          Some (goto t StatusReturn
                  (with_shared {| _cached_status := _cached_status (shared s);
                                  _cached_status_time := reading i |} s))
      | StatusReturn =>
          Some (goto t (StatusRelease (Returned (_cached_status (shared s)))) s)
      | StatusRelease r => Some (goto t (Finished r) (with_lock None s))
      | SetClearStatus st sw =>
          Some (goto t (SetClearTime st sw)
                  (with_shared {| _cached_status := PyStr "";
                                  _cached_status_time :=
                                    _cached_status_time (shared s) |} s))
      | SetClearTime st sw =>
          Some (goto t (SetCall 0 st sw)
                  (with_shared {| _cached_status := _cached_status (shared s);
                                  _cached_status_time := 0 |} s))
      | SetCall k st sw =>
          if (k <? 5)%nat then Some (goto t (SetReply k st sw) s)
          else Some (goto t (Finished (Returned PyNone)) s)
      | SetReply k st sw =>
          match reply i with
          | Returned v => Some (goto t (Finished (Returned v)) s)
          | Raised _ => Some (goto t (SetExcept k st sw) s)
          end
      | SetExcept k st sw =>
          if (k + 1 =? 3)%nat
          then Some (goto t (Finished (Returned PyNone)) s)
          else Some (goto t (SetCall (k + 1) st sw) s)
      | Finished _ => None
      end
  end.

(** A schedule: which thread moves, and what the world hands it. *)
Fixpoint run (sched : list (nat * input)) (s : sys) : option sys :=
  match sched with
  | [] => Some s
  | (t, i) :: rest =>
      match step t i s with
      | Some s' => run rest s'
      | None => None
      end
  end.

(** A call of the handle is in flight. *)
Definition in_flight (p : pc) : bool :=
  match p with
  | GetReply _ | SetReply _ _ _ => true
  | _ => false
  end.

Definition calls_in_flight (s : sys) : nat :=
  length (List.filter in_flight (threads s)).

(** The statements of [status()] between [acquire] and [release]. *)
Definition in_region (p : pc) : bool :=
  match p with
  | StatusTest | StatusSettle | GetCall _ | GetReply _ | GetExcept _
  | StatusStore _ | StatusStamp | StatusReturn | StatusRelease _ => true
  | _ => false
  end.

(** The statement at [p] assigns a field of the cache entry. *)
Definition writes_entry (p : pc) : bool :=
  match p with
  | StatusStore _ | StatusStamp | SetClearStatus _ _ | SetClearTime _ _ => true
  | _ => false
  end.

(** Whoever is between [acquire] and [release] holds the lock. *)
Definition lock_inv (s : sys) : Prop :=
  forall (t : nat) (p : pc),
    threads s !! t = Some p -> in_region p = true -> lock s = Some t.

End Threads.

(** ** Sample data *)

Definition dps1 : pyval :=
  PyDict [("1", PyBool true); ("18", PyInt 120);
          ("19", PyInt 305); ("20", PyInt 2300)].

Definition blob1 : pyval :=
  PyDict [("devId", PyStr "12345678912345671234"); ("dps", dps1)].

Definition plug1 : TuyaDevice :=
  TuyaDevice_init "Main Plug" "1" (Some "18") (Some "19") (Some "20").

Definition scripted (fs ws : list (outcome pyval)) (c : TuyaCache)
  : World Script :=
  mkWorld (mkScript fs ws) c [].

(** A new cache on a handle that times out twice, then answers. *)
Definition w_two_timeouts : World Script :=
  scripted [Raised timeout; Raised timeout; Returned blob1] [] TuyaCache_init.

(** A new cache on a handle that times out three times, then answers. *)
Definition w_three_timeouts : World Script :=
  scripted [Raised timeout; Raised timeout; Raised timeout; Returned blob1]
           [] TuyaCache_init.

(** A new cache on a handle that answers, and later answers otherwise. *)
Definition w_two_reports : World Script :=
  scripted [Returned blob1; Returned steady_report] [] TuyaCache_init.

(** A cache holding a report fetched at 100 s, on a handle that no
    longer answers. *)
Definition w_unplugged : World Script :=
  scripted [] [] {| _cached_status := blob1; _cached_status_time := 100 |}.

(** The same cache on a handle that refuses three writes. *)
Definition w_refusing : World Script :=
  scripted [] [Raised timeout; Raised timeout; Raised timeout; Returned PyNone]
           {| _cached_status := blob1; _cached_status_time := 100 |}.

(** The same cache on a handle that refuses one write, then accepts. *)
Definition w_reluctant : World Script :=
  scripted [] [Raised timeout; Returned PyNone]
           {| _cached_status := blob1; _cached_status_time := 100 |}.

(** A new cache on the steady handle. *)
Definition w_steady : World Steady :=
  mkWorld (mkSteady 0) TuyaCache_init [].

(** The plug after one refresh that succeeded. *)
Definition plug1_on : TuyaDevice :=
  {| _name := "Main Plug"; _available := true; _switch_id := "1";
     _attr_current := Some "18"; _attr_consumption := Some "19";
     _attr_voltage := Some "20"; _status := blob1; _state := PyBool true |}.

(** An entity whose voltage key is not in the report. *)
Definition plug_miskeyed : TuyaDevice :=
  {| _name := "USB Plug"; _available := true; _switch_id := "1";
     _attr_current := Some "18"; _attr_consumption := None;
     _attr_voltage := Some "21"; _status := blob1; _state := PyBool true |}.

(** Three polls ten seconds apart. *)
Definition polls_10s : list (Q * Q) :=
  [(100, 101); (110, 110); (120, 120)]%Q.

(** Two threads on one cache: one in [status()], one in
    [set_status(True, "1")]; the entry is stale at 200 s. *)
Definition two_callers : Threads.sys :=
  Threads.start {| _cached_status := blob1; _cached_status_time := 100 |}
                [Threads.CallStatus; Threads.CallSetStatus true "1"].

Definition tick : Threads.input :=
  {| Threads.reading := 200; Threads.reply := Raised timeout |}.

(** The same instant, with the handle answering. *)
Definition answer : Threads.input :=
  {| Threads.reading := 200; Threads.reply := Returned steady_report |}.

(** [two_callers] interleaved: the fetch of the first is answered, the
    second clears the blob, the first stores blob and stamp, the second
    clears the stamp; then both run to their end. *)
Definition clear_between_store_and_stamp : list (nat * Threads.input) :=
  [(0, tick); (0, tick); (0, tick); (0, tick); (0, answer);
   (1, tick);
   (0, tick); (0, tick);
   (1, tick);
   (0, tick); (0, tick);
   (1, tick); (1, answer)]%nat.


(** ** Further observations on a trace *)

Definition is_lock_event (e : event) : bool :=
  match e with EvAcquire | EvRelease => true | _ => false end.

Definition is_log_error (e : event) : bool :=
  match e with EvLogError _ => true | _ => false end.

Definition lock_events (t : list event) : nat :=
  length (List.filter is_lock_event t).

Definition logged_errors (t : list event) : nat :=
  length (List.filter is_log_error t).

(** Seconds spent in [sleep]. *)
Fixpoint slept (t : list event) : Q :=
  match t with
  | [] => 0
  | EvSleep d :: t' => d + slept t'
  | _ :: t' => slept t'
  end.

Section Turns.

Context {Handle : Type} `{!DeviceHandle Handle}.

(** What one turn of [__get_status] whose fetch raises leaves in the
    trace (newest first): the call, the [print], the [sleep(1.0)]. *)
Definition failed_fetch_turn : list event :=
  [EvSleep 1;
   EvPrint ("Failed to update status of device [" ++ address ++ "]");
   EvFetch].

Fixpoint failed_fetch_turns (k : nat) : list event :=
  match k with
  | O => []
  | S k' => failed_fetch_turn ++ failed_fetch_turns k'
  end.

(** What one turn of [set_status] whose write raises leaves in the
    trace: the call and the [print]. *)
Definition failed_write_turn (state : bool) (switchid : string) : list event :=
  [EvPrint ("Failed to set status of device [" ++ address ++ "]");
   EvWrite state switchid].

Fixpoint failed_write_turns (state : bool) (switchid : string) (k : nat)
  : list event :=
  match k with
  | O => []
  | S k' => failed_write_turn state switchid
            ++ failed_write_turns state switchid k'
  end.

(** [_LOGGER.error("Failed to update status of device %s", address)] *)
Definition log_update_failed : event :=
  EvLogError ("Failed to update status of device " ++ address).

(** [_LOGGER.error("Failed to set status of device %s", address)] *)
Definition log_set_failed : event :=
  EvLogError ("Failed to set status of device " ++ address).

End Turns.

(** ** TuyaDevice.unique_id

    [f"local_{self._device.unique_id}_{self._switch_id}"]; [device_id]
    is what [TuyaCache.unique_id] returns, the [id] of the handle. *)
Definition unique_id (device_id : string) (self : TuyaDevice) : string :=
  "local_" ++ device_id ++ "_" ++ _switch_id self.

(** ** async_setup_entry

    The keys of one entity's configuration; [device_config] is a dict
    from these keys to strings. *)
Inductive conf_key : Type :=
| CONF_ID
| CONF_FRIENDLY_NAME
| CONF_NAME
| CONF_CURRENT
| CONF_CURRENT_CONSUMPTION
| CONF_VOLTAGE.

Definition conf_key_eqb (a b : conf_key) : bool :=
  match a, b with
  | CONF_ID, CONF_ID
  | CONF_FRIENDLY_NAME, CONF_FRIENDLY_NAME
  | CONF_NAME, CONF_NAME
  | CONF_CURRENT, CONF_CURRENT
  | CONF_CURRENT_CONSUMPTION, CONF_CURRENT_CONSUMPTION
  | CONF_VOLTAGE, CONF_VOLTAGE => true
  | _, _ => false
  end.

(** [device_config.get(key)] *)
Fixpoint config_get (device_config : list (conf_key * string)) (key : conf_key)
  : option string :=
  match device_config with
  | [] => None
  | (k, v) :: rest =>
      if conf_key_eqb k key then Some v else config_get rest key
  end.

Section Setup.

(** The strings the key constants stand for (they name the key in a
    [KeyError]). *)
Variable key_name : conf_key -> string.

(** [device_config[key]] *)
Definition config_item (device_config : list (conf_key * string))
           (key : conf_key) : outcome string :=
  match config_get device_config key with
  | Some v => Returned v
  | None => Raised (KeyError (key_name key))
  end.

(** [TuyaDevice(TuyaCache(device), device_config[CONF_FRIENDLY_NAME],
    device_config[CONF_ID], device_config.get(CONF_CURRENT), ...)]: the
    new entity together with the new cache object it refers to. *)
Definition new_switch (device_config : list (conf_key * string))
  : outcome (TuyaDevice * TuyaCache) :=
  let cache := TuyaCache_init in
  obind (config_item device_config CONF_FRIENDLY_NAME) (fun friendly_name =>
  obind (config_item device_config CONF_ID) (fun switchid =>
  Returned (TuyaDevice_init friendly_name switchid
              (config_get device_config CONF_CURRENT)
              (config_get device_config CONF_CURRENT_CONSUMPTION)
              (config_get device_config CONF_VOLTAGE),
            cache))).

(** [for device_config in entities_to_setup: switches.append(...)] *)
Fixpoint setup_loop (entities : list (list (conf_key * string)))
         (switches : list (TuyaDevice * TuyaCache))
  : outcome (list (TuyaDevice * TuyaCache)) :=
  match entities with
  | [] => Returned switches
  | device_config :: rest =>
      obind (new_switch device_config) (fun switch =>
      setup_loop rest (switches ++ [switch]))
  end.

(** [async_setup_entry], from the [entities_to_setup] that
    [prepare_setup_entities] hands back: [None] when it returns without
    calling [async_add_entities], else the list it passes to it. *)
Definition async_setup_entry (entities_to_setup : list (list (conf_key * string)))
  : outcome (option (list (TuyaDevice * TuyaCache))) :=
  match entities_to_setup with
  | [] => Returned None
  | _ :: _ =>
      obind (setup_loop entities_to_setup []) (fun switches =>
      Returned (Some switches))
  end.

End Setup.

(** ** The entities of one device

    [async_setup_entry] wraps the one handle in a new [TuyaCache] for
    every entity: the platform holds the handle, one cache per entity
    (entity [i] refers to cache [i]) and the trace. *)

Record Platform (Handle : Type) : Type := mkPlatform {
  pdevice : Handle;
  pcaches : list TuyaCache;
  ptrace : list event
}.

Arguments mkPlatform {Handle} _ _ _.
Arguments pdevice {Handle} _.
Arguments pcaches {Handle} _.
Arguments ptrace {Handle} _.

(** What entity [i] sees when one of its methods runs. *)
Definition enter {Handle} (i : nat) (p : Platform Handle)
  : option (World Handle) :=
  match pcaches p !! i with
  | Some c => Some (mkWorld (pdevice p) c (ptrace p))
  | None => None
  end.

(** The platform once that method has run. *)
Definition leave {Handle} (i : nat) (w : World Handle) (p : Platform Handle)
  : Platform Handle :=
  {| pdevice := device w;
     pcaches := <[i := cache w]> (pcaches p);
     ptrace := trace w |}.

Section Entities.

Context {Handle : Type} `{!DeviceHandle Handle}.

(** [update()] of entity [i]. *)
Definition entity_update (now after : Q) (i : nat) (self : TuyaDevice)
           (p : Platform Handle) : option (TuyaDevice * Platform Handle) :=
  match enter i p with
  | Some w =>
      let '(self', w') := update now after self w in
      Some (self', leave i w' p)
  | None => None
  end.

(** [turn_on()] of entity [i]. *)
Definition entity_turn_on (i : nat) (self : TuyaDevice) (p : Platform Handle)
  : option (outcome pyval * Platform Handle) :=
  match enter i p with
  | Some w =>
      let '(r, w') := turn_on self w in
      Some (r, leave i w' p)
  | None => None
  end.

(** [turn_off()] of entity [i]. *)
Definition entity_turn_off (i : nat) (self : TuyaDevice) (p : Platform Handle)
  : option (outcome pyval * Platform Handle) :=
  match enter i p with
  | Some w =>
      let '(r, w') := turn_off self w in
      Some (r, leave i w' p)
  | None => None
  end.

End Entities.

(** The platform right after [async_setup_entry]. *)
Definition platform_of {Handle} (h : Handle)
           (switches : list (TuyaDevice * TuyaCache)) : Platform Handle :=
  {| pdevice := h; pcaches := map snd switches; ptrace := [] |}.

(** ** Steps a caller has left, at most

    For the program points a call can reach from its entry, the longest
    path to [Finished]; loop indices past 2 are never reached and get a
    bound of their own. *)
Definition steps_left (p : Threads.pc) : nat :=
  match p with
  | Threads.Finished _ => 0
  | Threads.StatusRelease _ => 1
  | Threads.StatusReturn => 2
  | Threads.StatusStamp => 3
  | Threads.StatusStore _ => 4
  | Threads.GetCall k =>
      if (k <=? 2)%nat then 12 - 3 * k else 5 + 3 * (5 - k)
  | Threads.GetReply k =>
      if (k <=? 2)%nat then 11 - 3 * k else 7 + 3 * (4 - k)
  | Threads.GetExcept k =>
      if (k <=? 2)%nat then 10 - 3 * k else 6 + 3 * (4 - k)
  | Threads.StatusSettle => 13
  | Threads.StatusTest => 14
  | Threads.StatusAcquire => 15
  | Threads.SetCall k _ _ =>
      if (k <=? 2)%nat then 9 - 3 * k else 1 + 3 * (5 - k)
  | Threads.SetReply k _ _ =>
      if (k <=? 2)%nat then 8 - 3 * k else 3 + 3 * (4 - k)
  | Threads.SetExcept k _ _ =>
      if (k <=? 2)%nat then 7 - 3 * k else 2 + 3 * (4 - k)
  | Threads.SetClearTime _ _ => 10
  | Threads.SetClearStatus _ _ => 11
  end.

Definition total_steps_left (s : Threads.sys) : nat :=
  list_sum (map steps_left (Threads.threads s)).

Definition is_finished (p : Threads.pc) : bool :=
  match p with Threads.Finished _ => true | _ => false end.

(** The attribute names an entity is configured to report, in the order
    [device_state_attributes] fills them in. *)
Definition configured_attrs (self : TuyaDevice) : list attr_name :=
  (match configured (_attr_current self) with
   | Some _ => [ATTR_CURRENT] | None => [] end)
  ++ (match configured (_attr_consumption self) with
      | Some _ => [ATTR_CURRENT_CONSUMPTION] | None => [] end)
  ++ (match configured (_attr_voltage self) with
      | Some _ => [ATTR_VOLTAGE] | None => [] end).

(** ** More sample data *)

(** The cache of [w_unplugged] on a handle that refuses one write and
    then answers it with the bytes of its reply. *)
Definition w_acknowledging : World Script :=
  scripted [Returned steady_report] [Raised timeout; Returned (PyStr "ack")]
           {| _cached_status := blob1; _cached_status_time := 100 |}.

(** A new cache on a handle whose first report is empty. *)
Definition w_empty_report : World Script :=
  scripted [Returned (PyDict []); Returned blob1] [] TuyaCache_init.

(** A report without the data point of switch ["7"]. *)
Definition plug_usb : TuyaDevice :=
  {| _name := "USB Plug"; _available := true; _switch_id := "7";
     _attr_current := None; _attr_consumption := None;
     _attr_voltage := None; _status := steady_report; _state := PyBool true |}.

(** An entity that reads the consumption from a data point holding a
    string. *)
Definition plug_text_reading : TuyaDevice :=
  {| _name := "Main Plug"; _available := true; _switch_id := "1";
     _attr_current := None; _attr_consumption := Some "devId";
     _attr_voltage := None;
     _status := PyDict [("dps", PyDict [("1", PyBool true);
                                        ("devId", PyStr "30.5")])];
     _state := PyBool true |}.

(** What [async_setup_entry] makes of one [device_config]: the entity
    carries the configured values, has seen no report, and refers to a
    cache of its own that is still empty. *)
Definition built_from (device_config : list (conf_key * string))
           (switch : TuyaDevice * TuyaCache) : Prop :=
  config_get device_config CONF_FRIENDLY_NAME = Some (_name (fst switch))
  /\ config_get device_config CONF_ID = Some (_switch_id (fst switch))
  /\ _attr_current (fst switch) = config_get device_config CONF_CURRENT
  /\ _attr_consumption (fst switch)
     = config_get device_config CONF_CURRENT_CONSUMPTION
  /\ _attr_voltage (fst switch) = config_get device_config CONF_VOLTAGE
  /\ _available (fst switch) = false
  /\ _status (fst switch) = PyNone
  /\ _state (fst switch) = PyNone
  /\ snd switch = TuyaCache_init.

(** The keys as the sample configuration at the head of the module
    spells them. *)
Definition sample_key_name (key : conf_key) : string :=
  match key with
  | CONF_ID => "id"
  | CONF_FRIENDLY_NAME => "friendly_name"
  | CONF_NAME => "name"
  | CONF_CURRENT => "current"
  | CONF_CURRENT_CONSUMPTION => "current_consumption"
  | CONF_VOLTAGE => "voltage"
  end.

(** [sw01] and [sw02] of that sample configuration. *)
Definition sw01 : list (conf_key * string) :=
  [(CONF_NAME, "main_plug"); (CONF_FRIENDLY_NAME, "Main Plug");
   (CONF_ID, "1"); (CONF_CURRENT, "18");
   (CONF_CURRENT_CONSUMPTION, "19"); (CONF_VOLTAGE, "20")].

Definition sw02 : list (conf_key * string) :=
  [(CONF_NAME, "usb_plug"); (CONF_FRIENDLY_NAME, "USB Plug"); (CONF_ID, "7")].


(** The two entities of the sample configuration and their caches. *)
Definition sample_switches : list (TuyaDevice * TuyaCache) :=
  [(TuyaDevice_init "Main Plug" "1" (Some "18") (Some "19") (Some "20"),
    TuyaCache_init);
   (TuyaDevice_init "USB Plug" "7" None None None, TuyaCache_init)].

(** Both entities have refreshed at 100 s; the handle then accepts a
    write and would report the new state. *)
Definition p_both_fresh : Platform Script :=
  {| pdevice := mkScript [Returned steady_report] [Returned PyNone];
     pcaches := [ {| _cached_status := blob1; _cached_status_time := 100 |};
                  {| _cached_status := blob1; _cached_status_time := 100 |} ];
     ptrace := [] |}.

(** The lock is held only by a thread that is inside [status()]. *)
Definition holder_inv (s : Threads.sys) : Prop :=
  forall t : nat,
    Threads.lock s = Some t ->
    exists p : Threads.pc,
      Threads.threads s !! t = Some p /\ Threads.in_region p = true.

(** [two_callers] once the first thread has taken the lock and tested
    the entry. *)
Definition two_callers_locked : Threads.sys :=
  {| Threads.lock := Some 0%nat;
     Threads.shared := {| _cached_status := blob1; _cached_status_time := 100 |};
     Threads.threads := [Threads.StatusSettle; Threads.SetClearStatus true "1"] |}.

(** The handle of a device that answers every fetch of the sample
    platform. *)
Definition h_two_answers : Script :=
  mkScript [Returned blob1; Returned blob1] [].

(** ** The read path: [__get_status] and [status] *)

Section CacheFacts.

Context {Handle : Type} `{!DeviceHandle Handle}.

Lemma fetches_emit (e : event) (w : World Handle) :
  is_fetch e = false -> fetches (trace (emit e w)) = fetches (trace w).
Proof.
  intros He. unfold fetches, emit. simpl. rewrite He. reflexivity.
Qed.

Lemma device_status_returned (w : World Handle) (b : pyval) (h : Handle) :
  dev_status (device w) = (Returned b, h) ->
  device_status w = (Returned b, mkWorld h (cache w) (EvFetch :: trace w)).
Proof. intros E. unfold device_status. rewrite E. reflexivity. Qed.

Lemma device_status_raised (w : World Handle) (e : exn) (h : Handle) :
  dev_status (device w) = (Raised e, h) ->
  device_status w = (Raised e, mkWorld h (cache w) (EvFetch :: trace w)).
Proof. intros E. unfold device_status. rewrite E. reflexivity. Qed.

(** One turn of the loop whose fetch returns. *)
Lemma get_status_loop_hit (i : nat) (rest : list nat) (w : World Handle)
      (b : pyval) (h : Handle) :
  dev_status (device w) = (Returned b, h) ->
  get_status_loop (i :: rest) w
  = (Returned b, mkWorld h (cache w) (EvFetch :: trace w)).
Proof.
  intros E. simpl. unfold try_except, bind.
  rewrite (device_status_returned _ _ _ E). reflexivity.
Qed.

(** One turn whose fetch raises, before the third failure. *)
Lemma get_status_loop_miss (i : nat) (rest : list nat) (w : World Handle)
      (e : exn) (h : Handle) :
  dev_status (device w) = (Raised e, h) ->
  (i + 1 =? 3)%nat = false ->
  get_status_loop (i :: rest) w = get_status_loop rest (after_failure h w).
Proof.
  intros E Hi. simpl. unfold try_except, bind.
  rewrite (device_status_raised _ _ _ E). simpl. rewrite Hi. reflexivity.
Qed.

(** The turn of the third failure. *)
Lemma get_status_loop_give_up (rest : list nat) (w : World Handle)
      (e : exn) (h : Handle) :
  dev_status (device w) = (Raised e, h) ->
  get_status_loop (2%nat :: rest) w
  = (Raised msg_update,
     emit (EvLogError ("Failed to update status of device " ++ address))
       (after_failure h w)).
Proof.
  intros E. simpl. unfold try_except, bind.
  rewrite (device_status_raised _ _ _ E). reflexivity.
Qed.

(** [k] failures and then a reply, all before the third failure. *)
Lemma get_status_loop_retry (k : nat) :
  forall (i n : nat) (w : World Handle) (h1 h2 : Handle) (b : pyval),
    (i + k < 3)%nat ->
    (k < n)%nat ->
    fetch_fails k (device w) = Some h1 ->
    dev_status h1 = (Returned b, h2) ->
    exists w',
      get_status_loop (seq i n) w = (Returned b, w')
      /\ device w' = h2
      /\ cache w' = cache w
      /\ fetches (trace w') = (fetches (trace w) + k + 1)%nat.
Proof.
  induction k as [|k IH]; intros i n w h1 h2 b Hi Hn Hf Hs.
  - destruct n as [|n]; [lia|]. simpl in Hf. injection Hf as <-.
    rewrite <- cons_seq, (get_status_loop_hit _ _ _ _ _ Hs).
    eexists. split; [reflexivity|]. simpl.
    repeat split. unfold fetches. simpl. lia.
  - destruct n as [|n]; [lia|]. simpl in Hf.
    destruct (dev_status (device w)) as [[v|e] h] eqn:E; [discriminate|].
    rewrite <- cons_seq, (get_status_loop_miss _ _ _ _ _ E).
    2: { apply Nat.eqb_neq. lia. }
    destruct (IH (S i) n (after_failure h w) h1 h2 b) as (w' & Hr & Hd & Hc & Ht);
      [lia | lia | exact Hf | exact Hs |].
    exists w'. rewrite Hr, Hd, Hc, Ht. repeat split.
    unfold after_failure. rewrite !fetches_emit by reflexivity.
    unfold fetches. simpl. lia.
Qed.

(** Failures up to and including the third one. *)
Lemma get_status_loop_exhaust (k : nat) :
  forall (i n : nat) (w : World Handle) (h : Handle),
    (i + k = 3)%nat ->
    (0 < k <= n)%nat ->
    fetch_fails k (device w) = Some h ->
    exists w',
      get_status_loop (seq i n) w = (Raised msg_update, w')
      /\ device w' = h
      /\ cache w' = cache w
      /\ fetches (trace w') = (fetches (trace w) + k)%nat.
Proof.
  induction k as [|k IH]; intros i n w h Hi Hn Hf; [lia|].
  destruct n as [|n]; [lia|]. simpl in Hf.
  destruct (dev_status (device w)) as [[v|e] h0] eqn:E; [discriminate|].
  rewrite <- cons_seq.
  destruct k as [|k].
  - assert (i = 2%nat) as -> by lia. simpl in Hf. injection Hf as <-.
    rewrite (get_status_loop_give_up _ _ _ _ E).
    eexists. split; [reflexivity|]. repeat split.
    unfold after_failure. rewrite !fetches_emit by reflexivity.
    unfold fetches. simpl. lia.
  - rewrite (get_status_loop_miss _ _ _ _ _ E).
    2: { apply Nat.eqb_neq. lia. }
    destruct (IH (S i) n (after_failure h0 w) h) as (w' & Hr & Hd & Hc & Ht);
      [lia | lia | exact Hf |].
    exists w'. rewrite Hr, Hd, Hc, Ht. repeat split.
    unfold after_failure. rewrite !fetches_emit by reflexivity.
    unfold fetches. simpl. lia.
Qed.

(** The loop never touches the cache entry, and a loop that runs at
    all calls the handle. *)
Lemma get_status_loop_frame (range : list nat) :
  forall w : World Handle,
    cache (snd (get_status_loop range w)) = cache w
    /\ (fetches (trace w) + Nat.min 1 (length range)
        <= fetches (trace (snd (get_status_loop range w))))%nat.
Proof.
  induction range as [|i rest IH]; intros w.
  - simpl. split; [reflexivity | lia].
  - destruct (dev_status (device w)) as [[v|e] h] eqn:E.
    + rewrite (get_status_loop_hit _ _ _ _ _ E). simpl.
      split; [reflexivity | unfold fetches; simpl; lia].
    + destruct (i + 1 =? 3)%nat eqn:Hi.
      * apply Nat.eqb_eq in Hi. assert (i = 2%nat) as -> by lia.
        rewrite (get_status_loop_give_up _ _ _ _ E). simpl.
        split; [reflexivity | unfold fetches; simpl; lia].
      * rewrite (get_status_loop_miss _ _ _ _ _ E Hi).
        destruct (IH (after_failure h w)) as [Hc Ht].
        rewrite Hc. split; [reflexivity|].
        revert Ht. unfold after_failure.
        rewrite !fetches_emit by reflexivity.
        unfold fetches. simpl. lia.
Qed.

(** [status()] when the entry is fresh: the memoized blob, no call of
    the handle. *)
Lemma status_memo (now after : Q) (w : World Handle) :
  needs_refresh (cache w) now = false ->
  status now after w
  = (Returned (_cached_status (cache w)), emit EvRelease (emit EvAcquire w)).
Proof.
  intros Hn. unfold status, bind, try_finally, do_emit, get_cache, ret.
  simpl. rewrite Hn. reflexivity.
Qed.

(** [status()] when the entry is empty or stale. *)
Lemma status_refresh (now after : Q) (w : World Handle) :
  needs_refresh (cache w) now = true ->
  status now after w
  = match __get_status (emit (EvSleep 0.5) (emit EvAcquire w)) with
    | (Returned s, w1) =>
        (Returned s,
         emit EvRelease
           (mkWorld (device w1)
                    {| _cached_status := s; _cached_status_time := after |}
                    (trace w1)))
    | (Raised e, w1) => (Raised e, emit EvRelease w1)
    end.
Proof.
  intros Hn. unfold status, bind, try_finally, do_emit, get_cache, ret,
    set_cached_status, set_cached_status_time.
  simpl. rewrite Hn.
  destruct (__get_status _) as [[s|e] w1]; reflexivity.
Qed.

Lemma needs_refresh_spec (c : TuyaCache) (now : Q) :
  needs_refresh c now = true
  <-> truthy (_cached_status c) = false \/ (15 < now - _cached_status_time c)%Q.
Proof.
  unfold needs_refresh, Qgtb. rewrite orb_true_iff, !negb_true_iff.
  split; (intros [Hs|Ht]; [left; exact Hs | right]).
  - apply Qnot_le_lt. intros Hle. apply Qle_bool_iff in Hle. congruence.
  - destruct (Qle_bool _ _) eqn:Hb; [|reflexivity].
    apply Qle_bool_iff in Hb. exfalso. exact (Qlt_not_le _ _ Ht Hb).
Qed.

Lemma needs_refresh_fresh (b : pyval) (t now : Q) :
  truthy b = true -> (now - t <= 15)%Q ->
  needs_refresh {| _cached_status := b; _cached_status_time := t |} now = false.
Proof.
  intros Hb Ht. destruct (needs_refresh _ now) eqn:Hn; [|reflexivity].
  apply needs_refresh_spec in Hn. simpl in Hn. destruct Hn as [Hn|Hn].
  - congruence.
  - exfalso. exact (Qlt_not_le _ _ Hn Ht).
Qed.

(** C10. For every cache state, a [status()] call that raises leaves the
    cache entry exactly as it was: blob and time stamp unchanged, so a
    stale blob fetched earlier is kept, not cleared. *)
Theorem status_failure_keeps_entry (now after : Q) (w w' : World Handle)
        (e : exn) :
  status now after w = (Raised e, w') -> cache w' = cache w.
Proof.
  intros Hs. destruct (needs_refresh (cache w) now) eqn:Hn.
  - rewrite (status_refresh _ _ _ Hn) in Hs. unfold __get_status in Hs.
    pose proof (get_status_loop_frame (seq 0 5)
                  (emit (EvSleep 0.5) (emit EvAcquire w))) as [Hc _].
    destruct (get_status_loop _ _) as [[s|e1] w1]; [discriminate|].
    injection Hs as _ <-. simpl in *. exact Hc.
  - rewrite (status_memo _ _ _ Hn) in Hs. discriminate.
Qed.

(** C1 (amended). On the read path, for every [k < 3]: if the fetch
    raises exactly [k] times and then returns a blob, one [status()] call
    that refreshes calls the handle exactly [k + 1] times, returns the
    blob and stores it, with the new time stamp, in the cache; if the
    fetch raises three times in a row, [status()] raises
    [ConnectionError] after exactly three calls and the entry stays as
    it was. *)
Theorem status_retry_budget (now after : Q) (w : World Handle) :
  needs_refresh (cache w) now = true ->
  (forall (k : nat) (h1 h2 : Handle) (b : pyval),
      (k < 3)%nat ->
      fetch_fails k (device w) = Some h1 ->
      dev_status h1 = (Returned b, h2) ->
      exists w',
        status now after w = (Returned b, w')
        /\ device w' = h2
        /\ cache w' = {| _cached_status := b; _cached_status_time := after |}
        /\ fetches (trace w') = (fetches (trace w) + (k + 1))%nat)
  /\ (forall h3 : Handle,
         fetch_fails 3 (device w) = Some h3 ->
         exists w',
           status now after w = (Raised msg_update, w')
           /\ device w' = h3
           /\ cache w' = cache w
           /\ fetches (trace w') = (fetches (trace w) + 3)%nat).
Proof.
  intros Hn. rewrite (status_refresh _ _ _ Hn). unfold __get_status. split.
  - intros k h1 h2 b Hk Hf Hs.
    destruct (get_status_loop_retry k 0 5 (emit (EvSleep 0.5) (emit EvAcquire w))
                h1 h2 b) as (w1 & Hr & Hd & Hc & Ht);
      [lia | lia | exact Hf | exact Hs |].
    rewrite Hr. eexists. split; [reflexivity|].
    rewrite fetches_emit by reflexivity. simpl.
    rewrite Hd, Ht, !fetches_emit by reflexivity.
    repeat split. lia.
  - intros h3 Hf.
    destruct (get_status_loop_exhaust 3 0 5 (emit (EvSleep 0.5) (emit EvAcquire w))
                h3) as (w1 & Hr & Hd & Hc & Ht);
      [lia | lia | exact Hf |].
    rewrite Hr. eexists. split; [reflexivity|].
    rewrite fetches_emit by reflexivity. simpl.
    rewrite Hd, Hc, Ht, !fetches_emit by reflexivity.
    repeat split.
Qed.

(** A refresh that returns has stored the blob with the new stamp. *)
Lemma status_refresh_stores (now after : Q) (w w1 : World Handle) (b : pyval) :
  needs_refresh (cache w) now = true ->
  status now after w = (Returned b, w1) ->
  cache w1 = {| _cached_status := b; _cached_status_time := after |}.
Proof.
  intros Hn Hs. rewrite (status_refresh _ _ _ Hn) in Hs.
  destruct (__get_status _) as [[s|e] w2]; [|discriminate].
  injection Hs as <- <-. reflexivity.
Qed.

(** Calls made while the entry is fresh are all served from the memo. *)
Lemma status_calls_memo (b : pyval) (t : Q) (clock : list (Q * Q)) :
  truthy b = true ->
  Forall (fun c => (fst c - t <= 15)%Q) clock ->
  forall w : World Handle,
    cache w = {| _cached_status := b; _cached_status_time := t |} ->
    Forall (fun r => r = Returned b) (fst (status_calls clock w))
    /\ device (snd (status_calls clock w)) = device w
    /\ cache (snd (status_calls clock w)) = cache w
    /\ fetches (trace (snd (status_calls clock w))) = fetches (trace w).
Proof.
  intros Hb Hall. induction Hall as [|[now after] rest Hnow _ IH]; intros w Hc.
  - simpl. repeat split. constructor.
  - simpl in Hnow. simpl.
    assert (needs_refresh (cache w) now = false) as Hn.
    { rewrite Hc. apply needs_refresh_fresh; assumption. }
    rewrite (status_memo _ after _ Hn).
    specialize (IH (emit EvRelease (emit EvAcquire w)) Hc).
    destruct (status_calls rest _) as [rs w2]. simpl in *.
    destruct IH as (Hrs & Hd & Hc2 & Ht).
    repeat split; try assumption.
    constructor; [rewrite Hc; reflexivity | exact Hrs].
Qed.

(** A call reaches the handle exactly when the test of [status()]
    asks for a refresh. *)
Lemma status_fetches_iff (now after : Q) (w : World Handle) :
  (fetches (trace w) < fetches (trace (snd (status now after w))))%nat
  <-> needs_refresh (cache w) now = true.
Proof.
  destruct (needs_refresh (cache w) now) eqn:Hn.
  - split; [reflexivity | intros _].
    rewrite (status_refresh _ _ _ Hn). unfold __get_status.
    pose proof (get_status_loop_frame (seq 0 5)
                  (emit (EvSleep 0.5) (emit EvAcquire w))) as [_ Ht].
    rewrite !fetches_emit in Ht by reflexivity.
    change (Nat.min 1 (length (seq 0 5))) with 1%nat in Ht.
    destruct (get_status_loop _ _) as [[s|e] w1]; cbn [snd fst] in *;
      rewrite fetches_emit by reflexivity; cbn [trace]; lia.
  - rewrite (status_memo _ _ _ Hn). cbn [snd].
    rewrite !fetches_emit by reflexivity.
    split; [lia | discriminate].
Qed.

(** C3 (amended). After a [status()] call that fetched a non-empty blob,
    every later call whose clock reading is at most 15 seconds past the
    time stamp stored by that fetch, with no [set_status()] in between,
    returns the identical blob and does not call the handle. A call
    refreshes exactly when the entry is empty or [now - fetchedAt]
    exceeds 15 seconds. *)
Theorem status_staleness :
  (forall (now0 after0 : Q) (w w1 : World Handle) (b : pyval)
          (clock : list (Q * Q)),
      needs_refresh (cache w) now0 = true ->
      status now0 after0 w = (Returned b, w1) ->
      truthy b = true ->
      Forall (fun c => (fst c - after0 <= 15)%Q) clock ->
      Forall (fun r => r = Returned b) (fst (status_calls clock w1))
      /\ device (snd (status_calls clock w1)) = device w1
      /\ cache (snd (status_calls clock w1)) = cache w1
      /\ fetches (trace (snd (status_calls clock w1))) = fetches (trace w1))
  /\ (forall (now after : Q) (w : World Handle),
         (fetches (trace w) < fetches (trace (snd (status now after w))))%nat
         <-> (truthy (_cached_status (cache w)) = false
              \/ (15 < now - _cached_status_time (cache w))%Q)).
Proof.
  split.
  - intros now0 after0 w w1 b clock Hn Hs Hb Hall.
    apply (status_calls_memo b after0); try assumption.
    exact (status_refresh_stores _ _ _ _ _ Hn Hs).
  - intros now after w. rewrite <- needs_refresh_spec.
    apply status_fetches_iff.
Qed.

(** With the third failure ending the loop, [__get_status] never runs
    off the end of [range(5)]: what it returns is a reply of the
    handle. *)
Lemma get_status_loop_returns_reply (n : nat) :
  forall (i : nat) (w w1 : World Handle) (s : pyval),
    fetches_nonempty ->
    (i <= 2)%nat -> (3 - i <= n)%nat ->
    get_status_loop (seq i n) w = (Returned s, w1) ->
    truthy s = true.
Proof.
  induction n as [|n IH]; intros i w w1 s Hne Hi Hn Hr; [lia|].
  rewrite <- cons_seq in Hr.
  destruct (dev_status (device w)) as [[v|e] h] eqn:E.
  - rewrite (get_status_loop_hit _ _ _ _ _ E) in Hr.
    injection Hr as <- _. exact (Hne _ _ _ E).
  - destruct (i + 1 =? 3)%nat eqn:Hi3.
    + apply Nat.eqb_eq in Hi3. assert (i = 2%nat) as -> by lia.
      rewrite (get_status_loop_give_up _ _ _ _ E) in Hr. discriminate.
    + apply Nat.eqb_neq in Hi3.
      rewrite (get_status_loop_miss _ _ _ _ _ E) in Hr
        by (apply Nat.eqb_neq; exact Hi3).
      apply (IH (S i) _ _ _ Hne) in Hr; [exact Hr | lia | lia].
Qed.

(** ** The write path: [set_status] *)

Lemma writes_emit (e : event) (w : World Handle) :
  is_write e = false -> writes (trace (emit e w)) = writes (trace w).
Proof.
  intros He. unfold writes, emit. simpl. rewrite He. reflexivity.
Qed.

Lemma writes_cons_write (state : bool) (switchid : string) (t : list event) :
  writes (EvWrite state switchid :: t) = S (writes t).
Proof. reflexivity. Qed.

(** One turn of the loop whose write returns. *)
Lemma set_status_loop_hit (state : bool) (switchid : string) (i : nat)
      (rest : list nat) (w : World Handle) (v : pyval) (h : Handle) :
  dev_set_status state switchid (device w) = (Returned v, h) ->
  set_status_loop state switchid (i :: rest) w
  = (Returned v, mkWorld h (cache w) (EvWrite state switchid :: trace w)).
Proof.
  intros E. simpl. unfold try_except, device_set_status. rewrite E. reflexivity.
Qed.

(** One turn whose write raises, before the third failure. *)
Lemma set_status_loop_miss (state : bool) (switchid : string) (i : nat)
      (rest : list nat) (w : World Handle) (e : exn) (h : Handle) :
  dev_set_status state switchid (device w) = (Raised e, h) ->
  (i + 1 =? 3)%nat = false ->
  set_status_loop state switchid (i :: rest) w
  = set_status_loop state switchid rest (after_write_failure state switchid h w).
Proof.
  intros E Hi. simpl. unfold try_except, device_set_status, bind.
  rewrite E. simpl. rewrite Hi. reflexivity.
Qed.

(** The turn of the third failure: logged, then a plain [return]. *)
Lemma set_status_loop_give_up (state : bool) (switchid : string)
      (rest : list nat) (w : World Handle) (e : exn) (h : Handle) :
  dev_set_status state switchid (device w) = (Raised e, h) ->
  set_status_loop state switchid (2%nat :: rest) w
  = (Returned PyNone,
     emit (EvLogError ("Failed to set status of device " ++ address))
       (after_write_failure state switchid h w)).
Proof.
  intros E. simpl. unfold try_except, device_set_status, bind.
  rewrite E. reflexivity.
Qed.

(** The loop returns on every path, leaves the entry alone and calls
    the handle at most [3 - i] times from index [i] on. *)
Lemma set_status_loop_frame (state : bool) (switchid : string) (n : nat) :
  forall (i : nat) (w : World Handle),
    (i <= 2)%nat ->
    exists (v : pyval) (w' : World Handle),
      set_status_loop state switchid (seq i n) w = (Returned v, w')
      /\ cache w' = cache w
      /\ (writes (trace w') <= writes (trace w) + Nat.min n (3 - i))%nat.
Proof.
  induction n as [|n IH]; intros i w Hi.
  - exists PyNone, w. repeat split. lia.
  - rewrite <- cons_seq.
    destruct (dev_set_status state switchid (device w)) as [[v|e] h] eqn:E.
    + rewrite (set_status_loop_hit _ _ _ _ _ _ _ E).
      eexists _, _. split; [reflexivity|]. cbn [cache trace].
      split; [reflexivity|]. rewrite writes_cons_write. lia.
    + destruct (i + 1 =? 3)%nat eqn:Hi3.
      * apply Nat.eqb_eq in Hi3. assert (i = 2%nat) as -> by lia.
        rewrite (set_status_loop_give_up _ _ _ _ _ _ E).
        eexists _, _. split; [reflexivity|]. split; [reflexivity|].
        unfold after_write_failure. rewrite !writes_emit by reflexivity.
        cbn [trace]. rewrite writes_cons_write. lia.
      * apply Nat.eqb_neq in Hi3.
        rewrite (set_status_loop_miss _ _ _ _ _ _ _ E)
          by (apply Nat.eqb_neq; exact Hi3).
        destruct (IH (S i) (after_write_failure state switchid h w))
          as (v & w' & Hr & Hc & Ht); [lia|].
        exists v, w'. split; [exact Hr|]. split; [rewrite Hc; reflexivity|].
        revert Ht. unfold after_write_failure.
        rewrite writes_emit by reflexivity.
        cbn [trace]. rewrite writes_cons_write. lia.
Qed.

(** [k] failed writes and then an accepted one. *)
Lemma set_status_loop_retry (state : bool) (switchid : string) (k : nat) :
  forall (i n : nat) (w : World Handle) (h1 h2 : Handle) (v : pyval),
    (i + k < 3)%nat ->
    (k < n)%nat ->
    write_fails state switchid k (device w) = Some h1 ->
    dev_set_status state switchid h1 = (Returned v, h2) ->
    exists w',
      set_status_loop state switchid (seq i n) w = (Returned v, w')
      /\ device w' = h2
      /\ writes (trace w') = (writes (trace w) + k + 1)%nat.
Proof.
  induction k as [|k IH]; intros i n w h1 h2 v Hi Hn Hf Hs.
  - destruct n as [|n]; [lia|]. simpl in Hf. injection Hf as <-.
    rewrite <- cons_seq, (set_status_loop_hit _ _ _ _ _ _ _ Hs).
    eexists. split; [reflexivity|]. simpl. split; [reflexivity|].
    unfold writes. simpl. lia.
  - destruct n as [|n]; [lia|]. simpl in Hf.
    destruct (dev_set_status state switchid (device w)) as [[x|e] h] eqn:E;
      [discriminate|].
    rewrite <- cons_seq, (set_status_loop_miss _ _ _ _ _ _ _ E).
    2: { apply Nat.eqb_neq. lia. }
    destruct (IH (S i) n (after_write_failure state switchid h w) h1 h2 v)
      as (w' & Hr & Hd & Ht); [lia | lia | exact Hf | exact Hs |].
    exists w'. rewrite Hr, Hd, Ht. repeat split.
    unfold after_write_failure. rewrite writes_emit by reflexivity.
    unfold writes. simpl. lia.
Qed.

(** Failed writes up to and including the third one. *)
Lemma set_status_loop_exhaust (state : bool) (switchid : string) (k : nat) :
  forall (i n : nat) (w : World Handle) (h : Handle),
    (i + k = 3)%nat ->
    (0 < k <= n)%nat ->
    write_fails state switchid k (device w) = Some h ->
    exists w',
      set_status_loop state switchid (seq i n) w = (Returned PyNone, w')
      /\ device w' = h
      /\ writes (trace w') = (writes (trace w) + k)%nat.
Proof.
  induction k as [|k IH]; intros i n w h Hi Hn Hf; [lia|].
  destruct n as [|n]; [lia|]. simpl in Hf.
  destruct (dev_set_status state switchid (device w)) as [[x|e] h0] eqn:E;
    [discriminate|].
  rewrite <- cons_seq.
  destruct k as [|k].
  - assert (i = 2%nat) as -> by lia. simpl in Hf. injection Hf as <-.
    rewrite (set_status_loop_give_up _ _ _ _ _ _ E).
    eexists. split; [reflexivity|]. split; [reflexivity|].
    unfold after_write_failure. rewrite !writes_emit by reflexivity.
    unfold writes. simpl. lia.
  - rewrite (set_status_loop_miss _ _ _ _ _ _ _ E).
    2: { apply Nat.eqb_neq. lia. }
    destruct (IH (S i) n (after_write_failure state switchid h0 w) h)
      as (w' & Hr & Hd & Ht); [lia | lia | exact Hf |].
    exists w'. rewrite Hr, Hd, Ht. repeat split.
    unfold after_write_failure. rewrite writes_emit by reflexivity.
    unfold writes. simpl. lia.
Qed.

(** [set_status] is its loop run on the invalidated entry. *)
Lemma set_status_unfold (state : bool) (switchid : string) (w : World Handle) :
  set_status state switchid w
  = set_status_loop state switchid (seq 0 5) (invalidated w).
Proof. reflexivity. Qed.

(** The sharper count: the handle sees at most three writes per call. *)
Lemma set_status_at_most_three (state : bool) (switchid : string)
      (w : World Handle) :
  (writes (trace (snd (set_status state switchid w)))
   <= writes (trace w) + 3)%nat.
Proof.
  rewrite set_status_unfold.
  destruct (set_status_loop_frame state switchid 5 0 (invalidated w))
    as (v & w' & Hr & _ & Ht); [lia|].
  rewrite Hr. simpl in *. lia.
Qed.

(** C4. Every [set_status()] call first empties the cache entry (blob
    [""], time stamp [0]) and only then runs the write loop, which never
    touches the entry; so whatever the outcome of the write, the entry
    is empty afterwards and the next [status()] call fetches from the
    handle, at any clock reading. *)
Theorem set_status_invalidates (state : bool) (switchid : string)
        (w : World Handle) :
  set_status state switchid w
  = set_status_loop state switchid (seq 0 5) (invalidated w)
  /\ cache (invalidated w) = TuyaCache_init
  /\ cache (snd (set_status state switchid w)) = TuyaCache_init
  /\ forall now after : Q,
      needs_refresh (cache (snd (set_status state switchid w))) now = true
      /\ (fetches (trace (snd (set_status state switchid w)))
          < fetches (trace (snd (status now after
                                   (snd (set_status state switchid w))))))%nat.
Proof.
  split; [reflexivity|]. split; [reflexivity|].
  assert (cache (snd (set_status state switchid w)) = TuyaCache_init) as Hc.
  { rewrite set_status_unfold.
    destruct (set_status_loop_frame state switchid 5 0 (invalidated w))
      as (v & w' & Hr & Hc & _); [lia|].
    rewrite Hr. exact Hc. }
  split; [exact Hc|]. intros now after.
  assert (needs_refresh (cache (snd (set_status state switchid w))) now = true)
    as Hn by (rewrite Hc; reflexivity).
  split; [exact Hn|].
  apply status_fetches_iff. exact Hn.
Qed.

(** C5 (amended). On the write path [set_status(state, switchid)]
    calls the handle's write at most 3 times and never raises: when the
    three attempts fail it returns [None] in the ordinary way, the
    failure only printed and logged, and the entry is empty afterwards.
    When an attempt is accepted it returns the handle's reply, so the
    caller sees the same [None] as on abandonment only if that reply is
    [None]. *)
Theorem set_status_swallows_failure (state : bool) (switchid : string)
        (w : World Handle) :
  (exists (v : pyval) (w' : World Handle),
      set_status state switchid w = (Returned v, w')
      /\ cache w' = TuyaCache_init
      /\ (writes (trace w') <= writes (trace w) + 3)%nat)
  /\ (forall h : Handle,
         write_fails state switchid 3 (device w) = Some h ->
         exists w',
           set_status state switchid w = (Returned PyNone, w')
           /\ device w' = h
           /\ cache w' = TuyaCache_init
           /\ writes (trace w') = (writes (trace w) + 3)%nat
           /\ exists t, trace w'
                        = EvLogError ("Failed to set status of device "
                                      ++ address) :: t)
  /\ (forall (k : nat) (h1 h2 : Handle) (v : pyval),
         (k < 3)%nat ->
         write_fails state switchid k (device w) = Some h1 ->
         dev_set_status state switchid h1 = (Returned v, h2) ->
         fst (set_status state switchid w) = Returned v
         /\ cache (snd (set_status state switchid w)) = TuyaCache_init).
Proof.
  rewrite set_status_unfold.
  destruct (set_status_loop_frame state switchid 5 0 (invalidated w))
    as (v & w' & Hr & Hc & Ht); [lia|].
  split; [|split].
  - exists v, w'. split; [exact Hr|]. split; [exact Hc|].
    simpl in Ht. lia.
  - intros h Hf.
    destruct (set_status_loop_exhaust state switchid 3 0 5 (invalidated w) h)
      as (w3 & Hr3 & Hd3 & Ht3); [lia | lia | exact Hf |].
    exists w3. split; [exact Hr3|]. split; [exact Hd3|].
    rewrite Hr in Hr3. injection Hr3 as _ <-.
    split; [exact Hc|]. split; [exact Ht3|].
    revert Hr. simpl in Hf. cbn [device invalidated] in Hf.
    change (seq 0 5) with [0; 1; 2; 3; 4]%nat.
    destruct (dev_set_status state switchid (device w))
      as [[x0|e0] h0] eqn:E0; [discriminate|].
    rewrite (set_status_loop_miss _ _ _ _ (invalidated w) _ _ E0)
      by reflexivity.
    destruct (dev_set_status state switchid h0) as [[x1|e1] h1] eqn:E1;
      [discriminate|].
    rewrite (set_status_loop_miss _ _ _ _
               (after_write_failure state switchid h0 (invalidated w)) _ _ E1)
      by reflexivity.
    destruct (dev_set_status state switchid h1) as [[x2|e2] h2] eqn:E2;
      [discriminate|].
    rewrite (set_status_loop_give_up _ _ _
               (after_write_failure state switchid h1
                  (after_write_failure state switchid h0 (invalidated w)))
               _ _ E2).
    intros Hr. injection Hr as _ <-. eexists. reflexivity.
  - intros k h1 h2 x Hk Hf Hs.
    destruct (set_status_loop_retry state switchid k 0 5 (invalidated w)
                h1 h2 x) as (wk & Hrk & _);
      [lia | lia | exact Hf | exact Hs |].
    rewrite Hrk in Hr. injection Hr as <- <-. rewrite Hrk.
    split; [reflexivity | exact Hc].
Qed.

(** C9 (amended). With the calls running one at a time, the entry
    invariant "time stamp unset iff blob empty" holds for a new
    [TuyaCache], holds after every [set_status()] call, and is kept by
    every [status()] call of a handle whose fetches return non-empty
    blobs, the clock not reading the unset value [0]. *)
Theorem entry_inv_preserved :
  entry_inv TuyaCache_init
  /\ (forall (state : bool) (switchid : string) (w : World Handle),
         entry_inv (cache (snd (set_status state switchid w))))
  /\ (forall (now after : Q) (w : World Handle),
         fetches_nonempty ->
         ~ (after == 0)%Q ->
         entry_inv (cache w) ->
         entry_inv (cache (snd (status now after w)))).
Proof.
  assert (entry_inv TuyaCache_init) as Hinit.
  { unfold entry_inv. simpl. split; reflexivity. }
  split; [exact Hinit|]. split.
  - intros state switchid w. rewrite set_status_unfold.
    destruct (set_status_loop_frame state switchid 5 0 (invalidated w))
      as (v & w' & Hr & Hc & _); [lia|].
    rewrite Hr. cbn [snd]. rewrite Hc. exact Hinit.
  - intros now after w Hne Hafter Hinv.
    destruct (needs_refresh (cache w) now) eqn:Hn.
    + rewrite (status_refresh _ _ _ Hn). unfold __get_status.
      pose proof (get_status_loop_frame (seq 0 5)
                    (emit (EvSleep 0.5) (emit EvAcquire w))) as [Hc _].
      destruct (get_status_loop _ _) as [[s|e] w1] eqn:Hr.
      * apply get_status_loop_returns_reply in Hr; [| exact Hne | lia | lia].
        unfold entry_inv. simpl. rewrite Hr.
        split; [intros H0; contradiction | discriminate].
      * cbn [snd] in *. unfold emit at 1. cbn [cache].
        rewrite Hc. exact Hinv.
    + rewrite (status_memo _ _ _ Hn). exact Hinv.
Qed.

(** ** The entity: [TuyaDevice.update] *)

(** C7. When [update()] fails because [status()] raises, the entity
    sets [_available] to [False] and changes no other field: the stored
    [_state] (the reported on/off value) and the stored [_status] blob
    are what they were. When the refresh succeeds, [_available] is
    [True]. *)
Theorem update_availability (now after : Q) (self : TuyaDevice)
        (w w' : World Handle) :
  (forall e : exn,
      status now after w = (Raised e, w') ->
      update now after self w = (set_available false self, w')
      /\ _available (fst (update now after self w)) = false
      /\ _state (fst (update now after self w)) = _state self
      /\ _status (fst (update now after self w)) = _status self
      /\ _name (fst (update now after self w)) = _name self
      /\ _switch_id (fst (update now after self w)) = _switch_id self
      /\ _attr_current (fst (update now after self w)) = _attr_current self
      /\ _attr_consumption (fst (update now after self w))
         = _attr_consumption self
      /\ _attr_voltage (fst (update now after self w)) = _attr_voltage self)
  /\ (forall s v : pyval,
         status now after w = (Returned s, w') ->
         dps_item s (_switch_id self) = Returned v ->
         _available (fst (update now after self w)) = true
         /\ _status (fst (update now after self w)) = s
         /\ _state (fst (update now after self w)) = v).
Proof.
  split.
  - intros e Hs. unfold update. rewrite Hs. repeat split.
  - intros s v Hs Hv. unfold update. rewrite Hs. cbn [_status set_status_field
      _switch_id]. rewrite Hv. repeat split.
Qed.

(** C6. With the report [{"1": true, "18": 120, "19": 305, "20": 2300}]
    under ["dps"] and an entity configured with switch id ["1"] and the
    keys ["18"], ["19"], ["20"] for current, consumption and voltage, a
    refresh that succeeds gives [is_on = True] and the attributes
    current 120 (as reported), consumption 30.5 and voltage 230.0 (each
    the report divided by 10). *)
Theorem adapter_projection (now after : Q) (self : TuyaDevice)
        (w w' : World Handle) (report : list (string * pyval)) :
  _switch_id self = "1" ->
  _attr_current self = Some "18" ->
  _attr_consumption self = Some "19" ->
  _attr_voltage self = Some "20" ->
  dict_get report "dps" = Some dps1 ->
  status now after w = (Returned (PyDict report), w') ->
  is_on (fst (update now after self w)) = PyBool true
  /\ available (fst (update now after self w)) = true
  /\ device_state_attributes (fst (update now after self w))
     = Returned [(ATTR_CURRENT, PyInt 120);
                 (ATTR_CURRENT_CONSUMPTION, PyFloat (Qred 30.5));
                 (ATTR_VOLTAGE, PyFloat (Qred 230.0))].
Proof.
  intros Hid Hc Hp Hv Hdps Hs.
  assert (forall k v, dict_get [("1", PyBool true); ("18", PyInt 120);
                                ("19", PyInt 305); ("20", PyInt 2300)] k
                      = Some v ->
                      dps_item (PyDict report) k = Returned v) as Hitem.
  { intros k v Hk. unfold dps_item, getitem. rewrite Hdps.
    unfold dps1. rewrite Hk. reflexivity. }
  assert (update now after self w
          = (set_available true
               (set_state_field (PyBool true)
                  (set_status_field (PyDict report) self)), w')) as ->.
  { unfold update. rewrite Hs. cbn [_status set_status_field _switch_id].
    rewrite Hid, (Hitem "1" (PyBool true)) by reflexivity. reflexivity. }
  cbn [fst]. split; [reflexivity|]. split; [reflexivity|].
  unfold device_state_attributes.
  cbn [_attr_current _attr_consumption _attr_voltage _status
       set_available set_state_field set_status_field].
  rewrite Hc, Hp, Hv. cbn [configured String.eqb Ascii.eqb Bool.eqb].
  rewrite (Hitem "18" (PyInt 120)), (Hitem "19" (PyInt 305)),
    (Hitem "20" (PyInt 2300)) by reflexivity.
  reflexivity.
Qed.

End CacheFacts.

(** ** The entity: [device_state_attributes] *)

Lemma dps_item_missing (status : pyval) (report dps : list (string * pyval))
      (k : string) :
  status = PyDict report ->
  dict_get report "dps" = Some (PyDict dps) ->
  dict_get dps k = None ->
  dps_item status k = Raised (KeyError k).
Proof.
  intros -> Hd Hk. unfold dps_item, getitem. rewrite Hd, Hk. reflexivity.
Qed.

(** A configured key whose lookup [self._status["dps"][key]] raises,
    for whatever reason, makes the whole read raise. *)
Lemma attributes_lookup_failure_raises (self : TuyaDevice) (k : string)
      (e0 : exn) :
  configured (_attr_current self) = Some k
  \/ configured (_attr_consumption self) = Some k
  \/ configured (_attr_voltage self) = Some k ->
  dps_item (_status self) k = Raised e0 ->
  exists e : exn, device_state_attributes self = Raised e.
Proof.
  intros Hcfg Hmiss. unfold device_state_attributes.
  destruct Hcfg as [Hc | [Hc | Hc]].
  - rewrite Hc, Hmiss. eexists. reflexivity.
  - match goal with
    | |- context [obind ?first _] => destruct first as [a1|e1]
    end; [| eexists; reflexivity].
    cbn [obind]. rewrite Hc, Hmiss. eexists. reflexivity.
  - match goal with
    | |- context [obind ?first _] => destruct first as [a1|e1]
    end; [| eexists; reflexivity].
    cbn [obind].
    match goal with
    | |- context [obind ?second _] => destruct second as [a2|e2]
    end; [| eexists; reflexivity].
    cbn [obind]. rewrite Hc, Hmiss. eexists. reflexivity.
Qed.

(** C8. When the last blob of an entity lacks a configured attribute key
    (the key for current, consumption or voltage), reading
    [device_state_attributes] raises: the attribute is neither left out
    nor given a default. *)
Theorem attributes_missing_key_raises (self : TuyaDevice)
        (report dps : list (string * pyval)) (k : string) :
  _status self = PyDict report ->
  dict_get report "dps" = Some (PyDict dps) ->
  configured (_attr_current self) = Some k
  \/ configured (_attr_consumption self) = Some k
  \/ configured (_attr_voltage self) = Some k ->
  dict_get dps k = None ->
  exists e : exn, device_state_attributes self = Raised e.
Proof.
  intros Hs Hd Hcfg Hk.
  exact (attributes_lookup_failure_raises self k (KeyError k) Hcfg
           (dps_item_missing _ _ _ _ Hs Hd Hk)).
Qed.

(** ** Several callers: what the lock covers *)

Lemma goto_lookup_eq (t : nat) (p q : Threads.pc) (s : Threads.sys) :
  Threads.threads s !! t = Some p ->
  Threads.threads (Threads.goto t q s) !! t = Some q.
Proof.
  intros Hp. unfold Threads.goto. cbn [Threads.threads].
  apply list_lookup_insert_eq. exact (lookup_lt_Some _ _ _ Hp).
Qed.

Lemma goto_lookup_ne (t t' : nat) (q : Threads.pc) (s : Threads.sys) :
  t <> t' ->
  Threads.threads (Threads.goto t q s) !! t' = Threads.threads s !! t'.
Proof.
  intros Hne. unfold Threads.goto. cbn [Threads.threads].
  apply list_lookup_insert_ne. exact Hne.
Qed.

(** A thread that moves to [q] keeps the invariant if it holds the lock
    whenever [q] lies in the region. *)
Lemma lock_inv_goto (t : nat) (p q : Threads.pc) (s : Threads.sys) :
  Threads.threads s !! t = Some p ->
  Threads.lock_inv s ->
  (Threads.in_region q = true -> Threads.lock s = Some t) ->
  Threads.lock_inv (Threads.goto t q s).
Proof.
  intros Hp Hinv Hq t' p' Hl Hr.
  destruct (Nat.eq_dec t t') as [<-|Hne].
  - rewrite (goto_lookup_eq _ _ _ _ Hp) in Hl. injection Hl as <-.
    exact (Hq Hr).
  - rewrite (goto_lookup_ne _ _ _ _ Hne) in Hl. exact (Hinv _ _ Hl Hr).
Qed.

Lemma lock_inv_with_shared (c : TuyaCache) (s : Threads.sys) :
  Threads.lock_inv s -> Threads.lock_inv (Threads.with_shared c s).
Proof. intros Hinv t p Hl Hr. exact (Hinv t p Hl Hr). Qed.

(** Taking a free lock: nobody was in the region. *)
Lemma lock_inv_acquire (t : nat) (s : Threads.sys) :
  Threads.threads s !! t = Some Threads.StatusAcquire ->
  Threads.lock s = None ->
  Threads.lock_inv s ->
  Threads.lock_inv
    (Threads.goto t Threads.StatusTest (Threads.with_lock (Some t) s)).
Proof.
  intros Hp Hfree Hinv t' p' Hl Hr.
  destruct (Nat.eq_dec t t') as [<-|Hne]; [reflexivity|].
  rewrite (goto_lookup_ne _ _ _ _ Hne) in Hl.
  specialize (Hinv _ _ Hl Hr). congruence.
Qed.

(** Releasing: the only thread in the region was the one that leaves. *)
Lemma lock_inv_release (t : nat) (r : outcome pyval) (s : Threads.sys) :
  Threads.threads s !! t = Some (Threads.StatusRelease r) ->
  Threads.lock_inv s ->
  Threads.lock_inv
    (Threads.goto t (Threads.Finished r) (Threads.with_lock None s)).
Proof.
  intros Hp Hinv t' p' Hl Hr.
  destruct (Nat.eq_dec t t') as [<-|Hne].
  - rewrite (goto_lookup_eq _ (Threads.StatusRelease r)) in Hl by exact Hp.
    injection Hl as <-. discriminate.
  - rewrite (goto_lookup_ne _ _ _ _ Hne) in Hl.
    pose proof (Hinv _ _ Hl Hr) as H1.
    pose proof (Hinv _ _ Hp eq_refl) as H2. congruence.
Qed.

Ltac stays_in_region Hp Hinv :=
  apply (lock_inv_goto _ _ _ _ Hp);
  [ try apply lock_inv_with_shared; exact Hinv
  | intros _; exact (Hinv _ _ Hp eq_refl) ].

Ltac stays_outside Hp Hinv :=
  apply (lock_inv_goto _ _ _ _ Hp);
  [ try apply lock_inv_with_shared; exact Hinv
  | intros Hq; discriminate Hq ].

Lemma step_lock_inv (t : nat) (i : Threads.input) (s s' : Threads.sys) :
  Threads.lock_inv s -> Threads.step t i s = Some s' -> Threads.lock_inv s'.
Proof.
  intros Hinv Hstep. unfold Threads.step in Hstep.
  destruct (Threads.threads s !! t) as [p|] eqn:Hp; [|discriminate].
  destruct p.
  - destruct (Threads.lock s) eqn:Hl; [discriminate|].
    injection Hstep as <-. apply lock_inv_acquire; assumption.
  - destruct (needs_refresh _ _); injection Hstep as <-;
      stays_in_region Hp Hinv.
  - injection Hstep as <-. stays_in_region Hp Hinv.
  - destruct (i0 <? 5)%nat; injection Hstep as <-; stays_in_region Hp Hinv.
  - destruct (Threads.reply i); injection Hstep as <-;
      stays_in_region Hp Hinv.
  - destruct (i0 + 1 =? 3)%nat; injection Hstep as <-;
      stays_in_region Hp Hinv.
  - injection Hstep as <-. stays_in_region Hp Hinv.
  - injection Hstep as <-. stays_in_region Hp Hinv.
  - injection Hstep as <-. stays_in_region Hp Hinv.
  - injection Hstep as <-. apply lock_inv_release; assumption.
  - injection Hstep as <-. stays_outside Hp Hinv.
  - injection Hstep as <-. stays_outside Hp Hinv.
  - destruct (i0 <? 5)%nat; injection Hstep as <-; stays_outside Hp Hinv.
  - destruct (Threads.reply i); injection Hstep as <-; stays_outside Hp Hinv.
  - destruct (i0 + 1 =? 3)%nat; injection Hstep as <-; stays_outside Hp Hinv.
  - discriminate.
Qed.

Lemma start_lock_inv (c : TuyaCache) (calls : list Threads.call) :
  Threads.lock_inv (Threads.start c calls).
Proof.
  intros t p Hl Hr. unfold Threads.start in Hl. cbn [Threads.threads] in Hl.
  rewrite list_lookup_fmap in Hl.
  destruct (calls !! t) as [[|st sw]|]; simpl in Hl;
    try discriminate; injection Hl as <-; discriminate.
Qed.

Lemma run_lock_inv (sched : list (nat * Threads.input)) :
  forall s s' : Threads.sys,
    Threads.lock_inv s -> Threads.run sched s = Some s' -> Threads.lock_inv s'.
Proof.
  induction sched as [|[t i] rest IH]; intros s s' Hinv Hrun.
  - injection Hrun as <-. exact Hinv.
  - simpl in Hrun. destruct (Threads.step t i s) as [s1|] eqn:Hstep;
      [|discriminate].
    exact (IH _ _ (step_lock_inv _ _ _ _ Hinv Hstep) Hrun).
Qed.

(** What the lock does give: callers of [status()] exclude one another,
    under any schedule and with any number of threads; in particular no
    two fetches are in flight together. *)
Lemma status_region_exclusive (c : TuyaCache) (calls : list Threads.call)
      (sched : list (nat * Threads.input)) (s : Threads.sys)
      (t1 t2 : nat) (p1 p2 : Threads.pc) :
  Threads.run sched (Threads.start c calls) = Some s ->
  Threads.threads s !! t1 = Some p1 -> Threads.in_region p1 = true ->
  Threads.threads s !! t2 = Some p2 -> Threads.in_region p2 = true ->
  t1 = t2.
Proof.
  intros Hrun H1 R1 H2 R2.
  pose proof (run_lock_inv _ _ _ (start_lock_inv c calls) Hrun) as Hinv.
  pose proof (Hinv _ _ H1 R1) as L1. pose proof (Hinv _ _ H2 R2) as L2.
  congruence.
Qed.

(** C2, on the code. Two threads share one cache. The first enters
    [status()], takes the lock and has its fetch in flight. The second
    then runs [set_status(True, "1")]: it assigns the cache entry while
    the first still holds the lock, and its write is in flight together
    with the fetch. *)
Lemma set_status_runs_outside_lock :
  exists s1 s2 s3 : Threads.sys,
    Threads.run [(0%nat, tick); (0%nat, tick); (0%nat, tick); (0%nat, tick)]
                two_callers = Some s1
    /\ Threads.lock s1 = Some 0%nat
    /\ Threads.threads s1
       = [Threads.GetReply 0; Threads.SetClearStatus true "1"]
    /\ Threads.step 1 tick s1 = Some s2
    /\ Threads.lock s2 = Some 0%nat
    /\ Threads.shared s2 <> Threads.shared s1
    /\ Threads.run [(1%nat, tick); (1%nat, tick)] s2 = Some s3
    /\ Threads.threads s3 = [Threads.GetReply 0; Threads.SetReply 0 true "1"]
    /\ Threads.calls_in_flight s3 = 2%nat.
Proof.
  eexists _, _, _.
  split; [vm_compute; reflexivity|].
  split; [reflexivity|]. split; [reflexivity|].
  split; [vm_compute; reflexivity|].
  split; [reflexivity|].
  split; [intros H; discriminate H|].
  split; [vm_compute; reflexivity|].
  split; reflexivity.
Qed.

(** ** The theorems at work on the scripted handles *)

(** Two time-outs and a reply: three calls, the blob is cached; three
    time-outs: [ConnectionError] after three calls. *)
Lemma status_retry_budget_witness :
  needs_refresh (cache w_two_timeouts) 100 = true
  /\ (exists w',
         status 100 101 w_two_timeouts = (Returned blob1, w')
         /\ device w' = mkScript [] []
         /\ cache w' = {| _cached_status := blob1; _cached_status_time := 101 |}
         /\ fetches (trace w') = (fetches (trace w_two_timeouts) + (2 + 1))%nat)
  /\ (exists w',
         status 100 101 w_three_timeouts = (Raised msg_update, w')
         /\ device w' = mkScript [Returned blob1] []
         /\ cache w' = cache w_three_timeouts
         /\ fetches (trace w') = (fetches (trace w_three_timeouts) + 3)%nat).
Proof.
  split; [reflexivity|]. split.
  - apply (proj1 (status_retry_budget 100 101 w_two_timeouts eq_refl)
             2%nat (mkScript [Returned blob1] []) (mkScript [] []) blob1).
    + lia.
    + reflexivity.
    + reflexivity.
  - apply (proj2 (status_retry_budget 100 101 w_three_timeouts eq_refl)
             (mkScript [Returned blob1] [])).
    reflexivity.
Defined.

(** C1 as stated fails at [k = 3]: the handle times out three times
    and would answer the fourth call, yet [status()] has raised after
    three calls and the cache entry is still empty. *)
Lemma status_gives_up_at_third_failure :
  (3 < 5)%nat
  /\ needs_refresh (cache w_three_timeouts) 100 = true
  /\ fetch_fails 3 (device w_three_timeouts) = Some (mkScript [Returned blob1] [])
  /\ dev_status (mkScript [Returned blob1] []) = (Returned blob1, mkScript [] [])
  /\ fst (status 100 101 w_three_timeouts) = Raised msg_update
  /\ fetches (trace (snd (status 100 101 w_three_timeouts))) = 3%nat
  /\ fetches (trace (snd (status 100 101 w_three_timeouts)))
     <> (fetches (trace w_three_timeouts) + (3 + 1))%nat
  /\ cache (snd (status 100 101 w_three_timeouts)) = TuyaCache_init.
Proof.
  split; [lia|]. repeat (split; [reflexivity|]).
  split; [vm_compute; discriminate | reflexivity].
Qed.

(** Polls within the window of a fetch stamped 101 s. *)
Lemma status_staleness_witness :
  needs_refresh (cache w_two_reports) 100 = true
  /\ truthy blob1 = true
  /\ Forall (fun c => (fst c - 101 <= 15)%Q) [(105, 105); (116, 116)]%Q
  /\ Forall (fun r => r = Returned blob1)
            (fst (status_calls [(105, 105); (116, 116)]%Q
                    (snd (status 100 101 w_two_reports))))
  /\ fetches (trace (snd (status_calls [(105, 105); (116, 116)]%Q
                           (snd (status 100 101 w_two_reports)))))
     = fetches (trace (snd (status 100 101 w_two_reports))).
Proof.
  assert (Forall (fun c => (fst c - 101 <= 15)%Q) [(105, 105); (116, 116)]%Q)
    as Hclock.
  { repeat constructor; apply Qle_bool_iff; reflexivity. }
  assert (status 100 101 w_two_reports
          = (Returned blob1, snd (status 100 101 w_two_reports))) as Hs
    by reflexivity.
  split; [reflexivity|]. split; [reflexivity|]. split; [exact Hclock|].
  destruct (proj1 status_staleness 100%Q 101%Q w_two_reports
              (snd (status 100 101 w_two_reports)) blob1
              [(105, 105); (116, 116)]%Q eq_refl Hs eq_refl Hclock)
    as (Hrs & _ & _ & Ht).
  split; [exact Hrs | exact Ht].
Defined.

(** C3 as stated fails for polls ten seconds apart: the third poll, 19
    seconds after the stamp of the first fetch, calls the handle again
    and returns another blob. *)
Lemma status_refetches_when_polled_every_10s :
  spaced_under_15 100 polls_10s
  /\ fst (status_calls polls_10s w_two_reports)
     = [Returned blob1; Returned blob1; Returned steady_report]
  /\ fetches (trace (snd (status_calls polls_10s w_two_reports))) = 2%nat.
Proof.
  split; [|split; reflexivity].
  unfold polls_10s. cbn [spaced_under_15].
  repeat split; (apply Qle_bool_iff; reflexivity) || reflexivity.
Qed.

(** A stale report survives a refresh that fails. *)
Lemma status_failure_keeps_entry_witness :
  status 200 201 w_unplugged
  = (Raised msg_update, snd (status 200 201 w_unplugged))
  /\ cache (snd (status 200 201 w_unplugged))
     = {| _cached_status := blob1; _cached_status_time := 100 |}.
Proof.
  assert (status 200 201 w_unplugged
          = (Raised msg_update, snd (status 200 201 w_unplugged))) as Hs
    by reflexivity.
  split; [exact Hs|].
  exact (status_failure_keeps_entry 200 201 w_unplugged
           (snd (status 200 201 w_unplugged)) msg_update Hs).
Defined.

(** Three refused writes: an ordinary [None]; one refusal and then an
    acknowledged write: the acknowledgement. *)
Lemma set_status_swallows_failure_witness :
  write_fails true "1" 3 (device w_refusing) = Some (mkScript [] [Returned PyNone])
  /\ (exists w',
         set_status true "1" w_refusing = (Returned PyNone, w')
         /\ device w' = mkScript [] [Returned PyNone]
         /\ cache w' = TuyaCache_init
         /\ writes (trace w') = (writes (trace w_refusing) + 3)%nat
         /\ exists t, trace w'
                      = EvLogError ("Failed to set status of device "
                                    ++ address (Handle := Script)) :: t)
  /\ write_fails true "1" 1 (device w_acknowledging)
     = Some (mkScript [Returned steady_report] [Returned (PyStr "ack")])
  /\ fst (set_status true "1" w_acknowledging) = Returned (PyStr "ack")
  /\ cache (snd (set_status true "1" w_acknowledging)) = TuyaCache_init.
Proof.
  split; [reflexivity|]. split.
  - apply (proj1 (proj2 (set_status_swallows_failure true "1" w_refusing))
             (mkScript [] [Returned PyNone])).
    reflexivity.
  - split; [reflexivity|].
    apply (proj2 (proj2 (set_status_swallows_failure true "1" w_acknowledging))
             1%nat (mkScript [Returned steady_report] [Returned (PyStr "ack")])
             (mkScript [Returned steady_report] []) (PyStr "ack")).
    + lia.
    + reflexivity.
    + reflexivity.
Defined.

(** C5 as stated fails twice. A handle that refuses three writes and
    would accept the fourth is tried three times, not up to five: the
    accepting reply is still unused. And the return value does tell an
    accepted write from an abandoned one: the acknowledgement of the
    handle against [None]. *)
Lemma set_status_reply_tells_success_from_abandonment :
  write_script (device w_refusing)
  = [Raised timeout; Raised timeout; Raised timeout; Returned PyNone]
  /\ writes (trace (snd (set_status true "1" w_refusing))) = 3%nat
  /\ write_script (device (snd (set_status true "1" w_refusing)))
     = [Returned PyNone]
  /\ fst (set_status true "1" w_refusing) = Returned PyNone
  /\ fst (set_status true "1" w_acknowledging) = Returned (PyStr "ack")
  /\ fst (set_status true "1" w_acknowledging)
     <> fst (set_status true "1" w_refusing).
Proof.
  repeat (split; [reflexivity|]).
  intros H. vm_compute in H. discriminate H.
Qed.

(** C9 as stated fails three ways. A fetch that returns the empty
    report leaves an empty blob with the stamp set. A clock that reads
    [0] leaves a non-empty blob with the stamp unset. And with two
    callers interleaved, [set_status()] clearing the blob before and the
    stamp after the other's assignments, both calls end with a
    non-empty blob and the stamp unset. *)
Lemma entry_inv_broken_by_status :
  entry_inv (cache w_empty_report)
  /\ ~ entry_inv (cache (snd (status 100 101 w_empty_report)))
  /\ entry_inv (cache w_two_reports)
  /\ ~ entry_inv (cache (snd (status 100 0 w_two_reports)))
  /\ exists s : Threads.sys,
      Threads.run clear_between_store_and_stamp two_callers = Some s
      /\ Forall (fun p => is_finished p = true) (Threads.threads s)
      /\ ~ entry_inv (Threads.shared s).
Proof.
  assert (entry_inv TuyaCache_init) as Hinit.
  { unfold entry_inv. simpl. split; reflexivity. }
  split; [exact Hinit|]. split.
  { intros [_ H]. specialize (H eq_refl). vm_compute in H. discriminate H. }
  split; [exact Hinit|]. split.
  { intros [H _]. specialize (H (Qeq_refl 0)). vm_compute in H.
    discriminate H. }
  eexists. split; [vm_compute; reflexivity|]. split.
  - repeat constructor.
  - intros [H _]. specialize (H (Qeq_refl 0)). vm_compute in H.
    discriminate H.
Qed.

Lemma steady_fetches_nonempty : fetches_nonempty (Handle := Steady).
Proof.
  intros h h' b E. simpl in E. injection E as <- _. reflexivity.
Defined.

(** The first refresh of a new cache on the steady handle. *)
Lemma entry_inv_preserved_witness :
  fetches_nonempty (Handle := Steady)
  /\ ~ (101 == 0)%Q
  /\ entry_inv (cache w_steady)
  /\ entry_inv (cache (snd (status 100 101 w_steady))).
Proof.
  assert (~ (101 == 0)%Q) as Hclock by (intros H; discriminate H).
  split; [exact steady_fetches_nonempty|]. split; [exact Hclock|].
  split.
  - exact (proj1 (entry_inv_preserved (Handle := Steady))).
  - apply (proj2 (proj2 entry_inv_preserved) 100%Q 101%Q w_steady
             steady_fetches_nonempty Hclock).
    exact (proj1 (entry_inv_preserved (Handle := Steady))).
Defined.

(** The plug of the sample configuration, first refresh. *)
Lemma adapter_projection_witness :
  status 100 101 (scripted [Returned blob1] [] TuyaCache_init)
  = (Returned blob1, snd (status 100 101 (scripted [Returned blob1] [] TuyaCache_init)))
  /\ is_on (fst (update 100 101 plug1
                   (scripted [Returned blob1] [] TuyaCache_init)))
     = PyBool true
  /\ available (fst (update 100 101 plug1
                       (scripted [Returned blob1] [] TuyaCache_init)))
     = true
  /\ device_state_attributes
       (fst (update 100 101 plug1 (scripted [Returned blob1] [] TuyaCache_init)))
     = Returned [(ATTR_CURRENT, PyInt 120);
                 (ATTR_CURRENT_CONSUMPTION, PyFloat (Qred 30.5));
                 (ATTR_VOLTAGE, PyFloat (Qred 230.0))].
Proof.
  assert (status 100 101 (scripted [Returned blob1] [] TuyaCache_init)
          = (Returned blob1,
             snd (status 100 101 (scripted [Returned blob1] [] TuyaCache_init))))
    as Hs by reflexivity.
  split; [exact Hs|].
  exact (adapter_projection 100 101 plug1
           (scripted [Returned blob1] [] TuyaCache_init)
           (snd (status 100 101 (scripted [Returned blob1] [] TuyaCache_init)))
           [("devId", PyStr "12345678912345671234"); ("dps", dps1)]
           eq_refl eq_refl eq_refl eq_refl eq_refl Hs).
Defined.

(** The plug was on; the handle stops answering; the next refresh marks
    it unavailable and still reports on. *)
Lemma update_availability_witness :
  status 200 201 w_unplugged
  = (Raised msg_update, snd (status 200 201 w_unplugged))
  /\ _available (fst (update 200 201 plug1_on w_unplugged)) = false
  /\ _state (fst (update 200 201 plug1_on w_unplugged)) = PyBool true
  /\ _status (fst (update 200 201 plug1_on w_unplugged)) = blob1
  /\ _available (fst (update 100 101 plug1 w_two_reports)) = true.
Proof.
  assert (status 200 201 w_unplugged
          = (Raised msg_update, snd (status 200 201 w_unplugged))) as Hfail
    by reflexivity.
  assert (status 100 101 w_two_reports
          = (Returned blob1, snd (status 100 101 w_two_reports))) as Hok
    by reflexivity.
  split; [exact Hfail|].
  destruct (proj1 (update_availability 200 201 plug1_on w_unplugged
                     (snd (status 200 201 w_unplugged))) msg_update Hfail)
    as (_ & Ha & Hst & Hs & _).
  split; [exact Ha|]. split; [exact Hst|]. split; [exact Hs|].
  exact (proj1 (proj2 (update_availability 100 101 plug1 w_two_reports
                         (snd (status 100 101 w_two_reports)))
                  blob1 (PyBool true) Hok eq_refl)).
Defined.

(** The voltage key ["21"] is not in the report. *)
Lemma attributes_missing_key_raises_witness :
  dict_get [("1", PyBool true); ("18", PyInt 120);
            ("19", PyInt 305); ("20", PyInt 2300)] "21" = None
  /\ exists e : exn, device_state_attributes plug_miskeyed = Raised e.
Proof.
  split; [reflexivity|].
  apply (attributes_missing_key_raises plug_miskeyed
           [("devId", PyStr "12345678912345671234"); ("dps", dps1)]
           [("1", PyBool true); ("18", PyInt 120);
            ("19", PyInt 305); ("20", PyInt 2300)] "21").
  - reflexivity.
  - reflexivity.
  - right. right. reflexivity.
  - reflexivity.
Defined.

(** ** The read path, event by event *)

Section CallShapes.

Context {Handle : Type} `{!DeviceHandle Handle}.

Lemma failed_fetch_turns_comm (k : nat) :
  failed_fetch_turns k ++ failed_fetch_turn
  = failed_fetch_turn ++ failed_fetch_turns k.
Proof.
  induction k as [|k IH]; [reflexivity|].
  cbn [failed_fetch_turns]. rewrite <- app_assoc, IH. reflexivity.
Qed.

Lemma after_failure_trace (h : Handle) (w : World Handle) :
  after_failure h w
  = mkWorld h (cache w) (failed_fetch_turn ++ trace w).
Proof. reflexivity. Qed.

(** [k] failed fetches and a reply: the world that results. *)
Lemma get_status_loop_retry_world (k : nat) :
  forall (i n : nat) (w : World Handle) (h1 h2 : Handle) (b : pyval),
    (i + k < 3)%nat ->
    (k < n)%nat ->
    fetch_fails k (device w) = Some h1 ->
    dev_status h1 = (Returned b, h2) ->
    get_status_loop (seq i n) w
    = (Returned b,
       mkWorld h2 (cache w) (EvFetch :: failed_fetch_turns k ++ trace w)).
Proof.
  induction k as [|k IH]; intros i n w h1 h2 b Hi Hn Hf Hs.
  - destruct n as [|n]; [lia|]. simpl in Hf. injection Hf as <-.
    rewrite <- cons_seq. exact (get_status_loop_hit _ _ _ _ _ Hs).
  - destruct n as [|n]; [lia|]. simpl in Hf.
    destruct (dev_status (device w)) as [[v|e] h] eqn:E; [discriminate|].
    rewrite <- cons_seq, (get_status_loop_miss _ _ _ _ _ E).
    2: { apply Nat.eqb_neq. lia. }
    rewrite (IH (S i) n (after_failure h w) h1 h2 b);
      [| lia | lia | exact Hf | exact Hs].
    rewrite after_failure_trace. cbn [cache trace failed_fetch_turns].
    rewrite app_assoc, failed_fetch_turns_comm. reflexivity.
Qed.

(** Failed fetches up to the third: the world that results. *)
Lemma get_status_loop_exhaust_world (k : nat) :
  forall (i n : nat) (w : World Handle) (h : Handle),
    (i + k = 3)%nat ->
    (0 < k <= n)%nat ->
    fetch_fails k (device w) = Some h ->
    get_status_loop (seq i n) w
    = (Raised msg_update,
       mkWorld h (cache w)
               (log_update_failed :: failed_fetch_turns k ++ trace w)).
Proof.
  induction k as [|k IH]; intros i n w h Hi Hn Hf; [lia|].
  destruct n as [|n]; [lia|]. simpl in Hf.
  destruct (dev_status (device w)) as [[v|e] h0] eqn:E; [discriminate|].
  rewrite <- cons_seq.
  destruct k as [|k].
  - assert (i = 2%nat) as -> by lia. simpl in Hf. injection Hf as <-.
    rewrite (get_status_loop_give_up _ _ _ _ E). reflexivity.
  - rewrite (get_status_loop_miss _ _ _ _ _ E).
    2: { apply Nat.eqb_neq. lia. }
    rewrite (IH (S i) n (after_failure h0 w) h); [| lia | lia | exact Hf].
    rewrite after_failure_trace. cbn [cache trace].
    change (failed_fetch_turns (S (S k)))
      with (failed_fetch_turn ++ failed_fetch_turns (S k)).
    rewrite app_assoc, failed_fetch_turns_comm. reflexivity.
Qed.

(** A handle either answers one of the first three fetches or fails
    all three. *)
Lemma fetch_outcomes (h : Handle) :
  (exists (k : nat) (h1 h2 : Handle) (b : pyval),
      (k < 3)%nat /\ fetch_fails k h = Some h1
      /\ dev_status h1 = (Returned b, h2))
  \/ (exists h3 : Handle, fetch_fails 3 h = Some h3).
Proof.
  destruct (dev_status h) as [[b0|e0] h0] eqn:E0.
  { left. exists 0%nat, h, h0, b0. repeat split; [lia | exact E0]. }
  destruct (dev_status h0) as [[b1|e1] h1] eqn:E1.
  { left. exists 1%nat, h0, h1, b1. simpl. rewrite E0.
    repeat split; [lia | exact E1]. }
  destruct (dev_status h1) as [[b2|e2] h2] eqn:E2.
  { left. exists 2%nat, h1, h2, b2. simpl. rewrite E0, E1.
    repeat split; [lia | exact E2]. }
  right. exists h2. simpl. rewrite E0, E1, E2. reflexivity.
Qed.

(** A refresh that is answered after [k < 3] failures. *)
Lemma status_hit_world (now after : Q) (w : World Handle) (k : nat)
      (h1 h2 : Handle) (b : pyval) :
  needs_refresh (cache w) now = true ->
  (k < 3)%nat ->
  fetch_fails k (device w) = Some h1 ->
  dev_status h1 = (Returned b, h2) ->
  status now after w
  = (Returned b,
     mkWorld h2 {| _cached_status := b; _cached_status_time := after |}
             (EvRelease :: EvFetch :: failed_fetch_turns k
                ++ EvSleep 0.5 :: EvAcquire :: trace w)).
Proof.
  intros Hn Hk Hf Hs. rewrite (status_refresh _ _ _ Hn). unfold __get_status.
  rewrite (get_status_loop_retry_world k 0 5
             (emit (EvSleep 0.5) (emit EvAcquire w)) h1 h2 b);
    [reflexivity | lia | lia | exact Hf | exact Hs].
Qed.

(** A refresh that meets three failures. *)
Lemma status_give_up_world (now after : Q) (w : World Handle) (h3 : Handle) :
  needs_refresh (cache w) now = true ->
  fetch_fails 3 (device w) = Some h3 ->
  status now after w
  = (Raised msg_update,
     mkWorld h3 (cache w)
             (EvRelease :: log_update_failed :: failed_fetch_turns 3
                ++ EvSleep 0.5 :: EvAcquire :: trace w)).
Proof.
  intros Hn Hf. rewrite (status_refresh _ _ _ Hn). unfold __get_status.
  rewrite (get_status_loop_exhaust_world 3 0 5
             (emit (EvSleep 0.5) (emit EvAcquire w)) h3);
    [reflexivity | lia | lia | exact Hf].
Qed.

(** The three ways a [status()] call can go. *)
Lemma status_cases (now after : Q) (w : World Handle) :
  (needs_refresh (cache w) now = false
   /\ status now after w
      = (Returned (_cached_status (cache w)),
         mkWorld (device w) (cache w) (EvRelease :: EvAcquire :: trace w)))
  \/ (needs_refresh (cache w) now = true
      /\ exists (k : nat) (h1 h2 : Handle) (b : pyval),
          (k < 3)%nat
          /\ fetch_fails k (device w) = Some h1
          /\ dev_status h1 = (Returned b, h2)
          /\ status now after w
             = (Returned b,
                mkWorld h2 {| _cached_status := b; _cached_status_time := after |}
                        (EvRelease :: EvFetch :: failed_fetch_turns k
                           ++ EvSleep 0.5 :: EvAcquire :: trace w)))
  \/ (needs_refresh (cache w) now = true
      /\ exists h3 : Handle,
          fetch_fails 3 (device w) = Some h3
          /\ status now after w
             = (Raised msg_update,
                mkWorld h3 (cache w)
                        (EvRelease :: log_update_failed :: failed_fetch_turns 3
                           ++ EvSleep 0.5 :: EvAcquire :: trace w))).
Proof.
  destruct (needs_refresh (cache w) now) eqn:Hn.
  - right.
    destruct (fetch_outcomes (device w))
      as [(k & h1 & h2 & b & Hk & Hf & Hs)|(h3 & Hf)].
    + left. split; [reflexivity|]. exists k, h1, h2, b.
      repeat (split; [assumption|]).
      exact (status_hit_world _ _ _ _ _ _ _ Hn Hk Hf Hs).
    + right. split; [reflexivity|]. exists h3. split; [exact Hf|].
      exact (status_give_up_world _ _ _ _ Hn Hf).
  - left. split; [reflexivity|]. exact (status_memo _ _ _ Hn).
Qed.

Lemma filter_failed_fetch_turns (f : event -> bool) (k : nat) :
  List.filter f (failed_fetch_turns k)
  = concat (repeat (List.filter f failed_fetch_turn) k).
Proof.
  induction k as [|k IH]; [reflexivity|].
  cbn [failed_fetch_turns repeat concat].
  rewrite List.filter_app, IH. reflexivity.
Qed.

Lemma lock_events_failed_fetch_turns (k : nat) :
  lock_events (failed_fetch_turns k) = 0%nat.
Proof.
  unfold lock_events. rewrite filter_failed_fetch_turns.
  induction k as [|k IH]; [reflexivity | exact IH].
Qed.

Lemma fetches_failed_fetch_turns (k : nat) (t : list event) :
  fetches (failed_fetch_turns k ++ t) = (k + fetches t)%nat.
Proof.
  induction k as [|k IH]; [reflexivity|].
  cbn [failed_fetch_turns]. rewrite <- app_assoc.
  change (fetches (failed_fetch_turn ++ failed_fetch_turns k ++ t))
    with (S (fetches (failed_fetch_turns k ++ t))).
  rewrite IH. reflexivity.
Qed.

Lemma writes_failed_fetch_turns (k : nat) (t : list event) :
  writes (failed_fetch_turns k ++ t) = writes t.
Proof.
  induction k as [|k IH]; [reflexivity|].
  cbn [failed_fetch_turns]. rewrite <- app_assoc. exact IH.
Qed.

Lemma logged_errors_failed_fetch_turns (k : nat) (t : list event) :
  logged_errors (failed_fetch_turns k ++ t) = logged_errors t.
Proof.
  induction k as [|k IH]; [reflexivity|].
  cbn [failed_fetch_turns]. rewrite <- app_assoc. exact IH.
Qed.

Lemma slept_failed_fetch_turns (k : nat) (t : list event) :
  (slept (failed_fetch_turns k ++ t) == inject_Z (Z.of_nat k) + slept t)%Q.
Proof.
  induction k as [|k IH].
  - cbn [failed_fetch_turns app]. change (inject_Z (Z.of_nat 0)) with 0%Q.
    rewrite Qplus_0_l. reflexivity.
  - cbn [failed_fetch_turns]. rewrite <- app_assoc.
    change (slept (failed_fetch_turn ++ failed_fetch_turns k ++ t))
      with (1 + slept (failed_fetch_turns k ++ t))%Q.
    rewrite IH, Nat2Z.inj_succ. unfold Z.succ. rewrite inject_Z_plus.
    change (inject_Z 1) with 1%Q. ring.
Qed.

Lemma lock_events_app (a b : list event) :
  lock_events (a ++ b) = (lock_events a + lock_events b)%nat.
Proof. unfold lock_events. rewrite List.filter_app, length_app. reflexivity. Qed.

(** X1. Every [status()] call takes the lock first and gives it back
    last, once each, whichever way the call ends (memo, fetched blob or
    [ConnectionError]): the events of the call are a release, then
    events that do not touch the lock, then the acquire. *)
Theorem status_holds_lock_once (now after : Q) (w : World Handle) :
  exists mid : list event,
    trace (snd (status now after w))
    = EvRelease :: mid ++ EvAcquire :: trace w
    /\ lock_events mid = 0%nat.
Proof.
  destruct (status_cases now after w)
    as [[_ Hs] | [[_ (k & h1 & h2 & b & _ & _ & _ & Hs)] | [_ (h3 & _ & Hs)]]];
    rewrite Hs; cbn [snd trace].
  - exists []. split; reflexivity.
  - exists (EvFetch :: failed_fetch_turns k ++ [EvSleep 0.5]). split.
    + cbn [app]. rewrite <- app_assoc. reflexivity.
    + change (EvFetch :: failed_fetch_turns k ++ [EvSleep 0.5])
        with ([EvFetch] ++ failed_fetch_turns k ++ [EvSleep 0.5]).
      rewrite !lock_events_app, lock_events_failed_fetch_turns. reflexivity.
  - exists (log_update_failed :: failed_fetch_turns 3 ++ [EvSleep 0.5]). split.
    + cbn [app]. rewrite <- app_assoc. reflexivity.
    + reflexivity.
Qed.

(** X2. Whatever exception the handle raises, the only exception
    [status()] lets out is [ConnectionError("Failed to update status .")],
    and it does so only when the entry needed a refresh and the handle
    failed three fetches in a row, which are then the only calls made. *)
Theorem status_raises_connection_error_only (now after : Q)
        (w w' : World Handle) (e : exn) :
  status now after w = (Raised e, w') ->
  e = ConnectionError "Failed to update status ."
  /\ needs_refresh (cache w) now = true
  /\ fetch_fails 3 (device w) = Some (device w')
  /\ fetches (trace w') = (fetches (trace w) + 3)%nat.
Proof.
  intros Hr.
  destruct (status_cases now after w)
    as [[_ Hs] | [[_ (k & h1 & h2 & b & _ & _ & _ & Hs)] | [Hn (h3 & Hf & Hs)]]];
    rewrite Hs in Hr; try discriminate.
  pose proof (f_equal snd Hr) as Hw. pose proof (f_equal fst Hr) as He.
  cbn [fst snd] in Hw, He. subst w'. injection He as <-.
  cbn [device trace].
  split; [reflexivity|]. split; [exact Hn|]. split; [exact Hf|].
  change (fetches (EvRelease :: log_update_failed :: failed_fetch_turns 3
                     ++ EvSleep 0.5 :: EvAcquire :: trace w))
    with (fetches (failed_fetch_turns 3 ++ EvSleep 0.5 :: EvAcquire :: trace w)).
  rewrite fetches_failed_fetch_turns.
  change (fetches (EvSleep 0.5 :: EvAcquire :: trace w)) with (fetches (trace w)).
  lia.
Qed.

(** X3. One [status()] call asks the handle for its status at most
    three times and never writes to the device. *)
Theorem status_call_budget (now after : Q) (w : World Handle) :
  (fetches (trace (snd (status now after w))) <= fetches (trace w) + 3)%nat
  /\ writes (trace (snd (status now after w))) = writes (trace w).
Proof.
  destruct (status_cases now after w)
    as [[_ Hs] | [[_ (k & h1 & h2 & b & Hk & _ & _ & Hs)] | [_ (h3 & _ & Hs)]]];
    rewrite Hs; cbn [snd trace].
  - split; [unfold fetches; simpl; lia | reflexivity].
  - split.
    + change (fetches (EvRelease :: EvFetch :: failed_fetch_turns k
                         ++ EvSleep 0.5 :: EvAcquire :: trace w))
        with (S (fetches (failed_fetch_turns k
                            ++ EvSleep 0.5 :: EvAcquire :: trace w))).
      rewrite fetches_failed_fetch_turns.
      change (fetches (EvSleep 0.5 :: EvAcquire :: trace w))
        with (fetches (trace w)). lia.
    + change (writes (EvRelease :: EvFetch :: failed_fetch_turns k
                        ++ EvSleep 0.5 :: EvAcquire :: trace w))
        with (writes (failed_fetch_turns k
                        ++ EvSleep 0.5 :: EvAcquire :: trace w)).
      rewrite writes_failed_fetch_turns. reflexivity.
  - split; [unfold fetches; simpl; lia | reflexivity].
Qed.

(** X4. How long [status()] sleeps: not at all when it serves the
    memo; half a second plus one second per failed fetch when a fetch is
    answered; three and a half seconds when it gives up. *)
Theorem status_sleep_budget (now after : Q) (w : World Handle) :
  (needs_refresh (cache w) now = false ->
   (slept (trace (snd (status now after w))) == slept (trace w))%Q)
  /\ (forall (k : nat) (h1 h2 : Handle) (b : pyval),
         needs_refresh (cache w) now = true ->
         (k < 3)%nat ->
         fetch_fails k (device w) = Some h1 ->
         dev_status h1 = (Returned b, h2) ->
         (slept (trace (snd (status now after w)))
          == slept (trace w) + 0.5 + inject_Z (Z.of_nat k))%Q)
  /\ (forall h3 : Handle,
         needs_refresh (cache w) now = true ->
         fetch_fails 3 (device w) = Some h3 ->
         (slept (trace (snd (status now after w))) == slept (trace w) + 3.5)%Q).
Proof.
  split; [|split].
  - intros Hn. rewrite (status_memo _ _ _ Hn). reflexivity.
  - intros k h1 h2 b Hn Hk Hf Hs.
    rewrite (status_hit_world _ _ _ _ _ _ _ Hn Hk Hf Hs). cbn [snd trace].
    change (slept (EvRelease :: EvFetch :: failed_fetch_turns k
                     ++ EvSleep 0.5 :: EvAcquire :: trace w))
      with (slept (failed_fetch_turns k ++ EvSleep 0.5 :: EvAcquire :: trace w)).
    rewrite slept_failed_fetch_turns.
    change (slept (EvSleep 0.5 :: EvAcquire :: trace w))
      with (0.5 + slept (trace w))%Q. ring.
  - intros h3 Hn Hf.
    rewrite (status_give_up_world _ _ _ _ Hn Hf). cbn [snd trace].
    change (slept (EvRelease :: log_update_failed :: failed_fetch_turns 3
                     ++ EvSleep 0.5 :: EvAcquire :: trace w))
      with (1 + (1 + (1 + (0.5 + slept (trace w)))))%Q. ring.
Qed.

(** X5. [status()] logs at error severity exactly when it raises: one
    record on the call that gives up, none on a call that returns, even
    one that returns after failed fetches. *)
Theorem status_logs_iff_raises (now after : Q) (w : World Handle) :
  match fst (status now after w) with
  | Raised _ =>
      logged_errors (trace (snd (status now after w)))
      = S (logged_errors (trace w))
  | Returned _ =>
      logged_errors (trace (snd (status now after w)))
      = logged_errors (trace w)
  end.
Proof.
  destruct (status_cases now after w)
    as [[_ Hs] | [[_ (k & h1 & h2 & b & Hk & _ & _ & Hs)] | [_ (h3 & _ & Hs)]]];
    rewrite Hs; cbn [fst snd trace].
  - reflexivity.
  - change (logged_errors (EvRelease :: EvFetch :: failed_fetch_turns k
                             ++ EvSleep 0.5 :: EvAcquire :: trace w))
      with (logged_errors (failed_fetch_turns k
                             ++ EvSleep 0.5 :: EvAcquire :: trace w)).
    rewrite logged_errors_failed_fetch_turns. reflexivity.
  - reflexivity.
Qed.

(** X6. A blob that Python counts as false (an empty report [{}], an
    empty string, [None]) is stored but never served: after a refresh
    that returned it, every later [status()] call goes to the handle
    again, at any clock reading. *)
Theorem status_empty_report_not_memoized (now0 after0 : Q)
        (w w1 : World Handle) (b : pyval) :
  needs_refresh (cache w) now0 = true ->
  status now0 after0 w = (Returned b, w1) ->
  truthy b = false ->
  _cached_status (cache w1) = b
  /\ forall now after : Q,
      (fetches (trace w1) < fetches (trace (snd (status now after w1))))%nat.
Proof.
  intros Hn Hs Hb.
  pose proof (status_refresh_stores _ _ _ _ _ Hn Hs) as Hc.
  split; [rewrite Hc; reflexivity|].
  intros now after. apply status_fetches_iff.
  unfold needs_refresh. rewrite Hc. cbn [_cached_status]. rewrite Hb.
  reflexivity.
Qed.

(** ** The write path, event by event *)

Lemma failed_write_turns_comm (state : bool) (switchid : string) (k : nat) :
  failed_write_turns state switchid k ++ failed_write_turn state switchid
  = failed_write_turn state switchid ++ failed_write_turns state switchid k.
Proof.
  induction k as [|k IH]; [reflexivity|].
  cbn [failed_write_turns]. rewrite <- app_assoc, IH. reflexivity.
Qed.

Lemma after_write_failure_trace (state : bool) (switchid : string)
      (h : Handle) (w : World Handle) :
  after_write_failure state switchid h w
  = mkWorld h (cache w) (failed_write_turn state switchid ++ trace w).
Proof. reflexivity. Qed.

(** [k] refused writes and an accepted one: the world that results. *)
Lemma set_status_loop_retry_world (state : bool) (switchid : string) (k : nat) :
  forall (i n : nat) (w : World Handle) (h1 h2 : Handle) (v : pyval),
    (i + k < 3)%nat ->
    (k < n)%nat ->
    write_fails state switchid k (device w) = Some h1 ->
    dev_set_status state switchid h1 = (Returned v, h2) ->
    set_status_loop state switchid (seq i n) w
    = (Returned v,
       mkWorld h2 (cache w)
               (EvWrite state switchid
                  :: failed_write_turns state switchid k ++ trace w)).
Proof.
  induction k as [|k IH]; intros i n w h1 h2 v Hi Hn Hf Hs.
  - destruct n as [|n]; [lia|]. simpl in Hf. injection Hf as <-.
    rewrite <- cons_seq. exact (set_status_loop_hit _ _ _ _ _ _ _ Hs).
  - destruct n as [|n]; [lia|]. simpl in Hf.
    destruct (dev_set_status state switchid (device w)) as [[x|e] h] eqn:E;
      [discriminate|].
    rewrite <- cons_seq, (set_status_loop_miss _ _ _ _ _ _ _ E).
    2: { apply Nat.eqb_neq. lia. }
    rewrite (IH (S i) n (after_write_failure state switchid h w) h1 h2 v);
      [| lia | lia | exact Hf | exact Hs].
    rewrite after_write_failure_trace. cbn [cache trace failed_write_turns].
    rewrite app_assoc, failed_write_turns_comm. reflexivity.
Qed.

(** Refused writes up to the third: the world that results. *)
Lemma set_status_loop_exhaust_world (state : bool) (switchid : string)
      (k : nat) :
  forall (i n : nat) (w : World Handle) (h : Handle),
    (i + k = 3)%nat ->
    (0 < k <= n)%nat ->
    write_fails state switchid k (device w) = Some h ->
    set_status_loop state switchid (seq i n) w
    = (Returned PyNone,
       mkWorld h (cache w)
               (log_set_failed
                  :: failed_write_turns state switchid k ++ trace w)).
Proof.
  induction k as [|k IH]; intros i n w h Hi Hn Hf; [lia|].
  destruct n as [|n]; [lia|]. simpl in Hf.
  destruct (dev_set_status state switchid (device w)) as [[x|e] h0] eqn:E;
    [discriminate|].
  rewrite <- cons_seq.
  destruct k as [|k].
  - assert (i = 2%nat) as -> by lia. simpl in Hf. injection Hf as <-.
    rewrite (set_status_loop_give_up _ _ _ _ _ _ E). reflexivity.
  - rewrite (set_status_loop_miss _ _ _ _ _ _ _ E).
    2: { apply Nat.eqb_neq. lia. }
    rewrite (IH (S i) n (after_write_failure state switchid h0 w) h);
      [| lia | lia | exact Hf].
    rewrite after_write_failure_trace. cbn [cache trace].
    change (failed_write_turns state switchid (S (S k)))
      with (failed_write_turn state switchid
              ++ failed_write_turns state switchid (S k)).
    rewrite app_assoc, failed_write_turns_comm. reflexivity.
Qed.

Lemma write_outcomes (state : bool) (switchid : string) (h : Handle) :
  (exists (k : nat) (h1 h2 : Handle) (v : pyval),
      (k < 3)%nat /\ write_fails state switchid k h = Some h1
      /\ dev_set_status state switchid h1 = (Returned v, h2))
  \/ (exists h3 : Handle, write_fails state switchid 3 h = Some h3).
Proof.
  destruct (dev_set_status state switchid h) as [[b0|e0] h0] eqn:E0.
  { left. exists 0%nat, h, h0, b0. repeat split; [lia | exact E0]. }
  destruct (dev_set_status state switchid h0) as [[b1|e1] h1] eqn:E1.
  { left. exists 1%nat, h0, h1, b1. simpl. rewrite E0.
    repeat split; [lia | exact E1]. }
  destruct (dev_set_status state switchid h1) as [[b2|e2] h2] eqn:E2.
  { left. exists 2%nat, h1, h2, b2. simpl. rewrite E0, E1.
    repeat split; [lia | exact E2]. }
  right. exists h2. simpl. rewrite E0, E1, E2. reflexivity.
Qed.

(** A write accepted after [k < 3] refusals. *)
Lemma set_status_hit_world (state : bool) (switchid : string)
      (w : World Handle) (k : nat) (h1 h2 : Handle) (v : pyval) :
  (k < 3)%nat ->
  write_fails state switchid k (device w) = Some h1 ->
  dev_set_status state switchid h1 = (Returned v, h2) ->
  set_status state switchid w
  = (Returned v,
     mkWorld h2 TuyaCache_init
             (EvWrite state switchid
                :: failed_write_turns state switchid k ++ trace w)).
Proof.
  intros Hk Hf Hs. rewrite set_status_unfold.
  exact (set_status_loop_retry_world state switchid k 0 5 (invalidated w)
           h1 h2 v ltac:(lia) ltac:(lia) Hf Hs).
Qed.

(** A write refused three times. *)
Lemma set_status_abandon_world (state : bool) (switchid : string)
      (w : World Handle) (h3 : Handle) :
  write_fails state switchid 3 (device w) = Some h3 ->
  set_status state switchid w
  = (Returned PyNone,
     mkWorld h3 TuyaCache_init
             (log_set_failed
                :: failed_write_turns state switchid 3 ++ trace w)).
Proof.
  intros Hf. rewrite set_status_unfold.
  exact (set_status_loop_exhaust_world state switchid 3 0 5 (invalidated w)
           h3 ltac:(lia) ltac:(lia) Hf).
Qed.

Lemma writes_failed_write_turns (state : bool) (switchid : string) (k : nat)
      (t : list event) :
  writes (failed_write_turns state switchid k ++ t) = (k + writes t)%nat.
Proof.
  induction k as [|k IH]; [reflexivity|].
  cbn [failed_write_turns]. rewrite <- app_assoc.
  change (writes (failed_write_turn state switchid
                    ++ failed_write_turns state switchid k ++ t))
    with (S (writes (failed_write_turns state switchid k ++ t))).
  rewrite IH. reflexivity.
Qed.

(** A refused write leaves no fetch, no lock event, no error record and
    no sleep behind. *)
Lemma failed_write_turns_quiet (state : bool) (switchid : string) (k : nat)
      (t : list event) :
  fetches (failed_write_turns state switchid k ++ t) = fetches t
  /\ lock_events (failed_write_turns state switchid k ++ t) = lock_events t
  /\ logged_errors (failed_write_turns state switchid k ++ t) = logged_errors t
  /\ slept (failed_write_turns state switchid k ++ t) = slept t.
Proof.
  induction k as [|k IH]; [repeat split|].
  cbn [failed_write_turns]. rewrite <- app_assoc. exact IH.
Qed.

(** X7. Every [set_status()] call tries the write at least once and at
    most three times, and does nothing else to the outside: it never
    asks the handle for its status, never sleeps between attempts and
    never takes or releases the lock. *)
Theorem set_status_only_writes (state : bool) (switchid : string)
        (w : World Handle) :
  (writes (trace w) < writes (trace (snd (set_status state switchid w)))
   <= writes (trace w) + 3)%nat
  /\ fetches (trace (snd (set_status state switchid w))) = fetches (trace w)
  /\ lock_events (trace (snd (set_status state switchid w)))
     = lock_events (trace w)
  /\ slept (trace (snd (set_status state switchid w))) = slept (trace w).
Proof.
  destruct (write_outcomes state switchid (device w))
    as [(k & h1 & h2 & v & Hk & Hf & Hs)|(h3 & Hf)].
  - rewrite (set_status_hit_world _ _ _ _ _ _ _ Hk Hf Hs). cbn [snd trace].
    destruct (failed_write_turns_quiet state switchid k (trace w))
      as (Hfe & Hl & _ & Hsl).
    split; [|split; [exact Hfe | split; [exact Hl | exact Hsl]]].
    rewrite writes_cons_write, writes_failed_write_turns. lia.
  - rewrite (set_status_abandon_world _ _ _ _ Hf). cbn [snd trace].
    repeat split; unfold writes; simpl; lia.
Qed.

(** X8. When the handle accepts the write at the first, second or third
    attempt, [set_status()] hands back exactly what the handle returned,
    has made one call per failure plus one, and leaves no error record:
    the earlier failures are only printed. *)
Theorem set_status_forwards_reply (state : bool) (switchid : string)
        (w : World Handle) (k : nat) (h1 h2 : Handle) (v : pyval) :
  (k < 3)%nat ->
  write_fails state switchid k (device w) = Some h1 ->
  dev_set_status state switchid h1 = (Returned v, h2) ->
  fst (set_status state switchid w) = Returned v
  /\ device (snd (set_status state switchid w)) = h2
  /\ writes (trace (snd (set_status state switchid w)))
     = (writes (trace w) + k + 1)%nat
  /\ logged_errors (trace (snd (set_status state switchid w)))
     = logged_errors (trace w).
Proof.
  intros Hk Hf Hs.
  rewrite (set_status_hit_world _ _ _ _ _ _ _ Hk Hf Hs). cbn [fst snd device trace].
  destruct (failed_write_turns_quiet state switchid k (trace w))
    as (_ & _ & Hlog & _).
  split; [reflexivity|]. split; [reflexivity|]. split.
  - rewrite writes_cons_write, writes_failed_write_turns. lia.
  - exact Hlog.
Qed.

(** ** The entity, further *)

Lemma update_world (now after : Q) (self : TuyaDevice) (w : World Handle) :
  snd (update now after self w) = snd (status now after w).
Proof.
  unfold update. destruct (status now after w) as [[s|e] w']; [|reflexivity].
  cbn [_status set_status_field _switch_id].
  destruct (dps_item s (_switch_id self)); reflexivity.
Qed.

(** X9. When [status()] returns a report that lacks the entity's switch
    id, [update()] marks the entity unavailable but has already stored
    the new report: [_status] is the new blob while [_state] is still
    the old value. *)
Theorem update_keeps_report_without_switch (now after : Q)
        (self : TuyaDevice) (w w' : World Handle) (s : pyval) (e : exn) :
  status now after w = (Returned s, w') ->
  dps_item s (_switch_id self) = Raised e ->
  update now after self w = (set_available false (set_status_field s self), w')
  /\ _available (fst (update now after self w)) = false
  /\ _status (fst (update now after self w)) = s
  /\ _state (fst (update now after self w)) = _state self.
Proof.
  intros Hs He. unfold update. rewrite Hs.
  cbn [_status set_status_field _switch_id]. rewrite He. repeat split.
Qed.

(** A command is [set_status] with its value dropped. *)
Lemma command_spec (on : bool) (self : TuyaDevice) (w : World Handle) :
  (if on then turn_on self else turn_off self) w
  = (Returned PyNone, snd (set_status on (_switch_id self) w)).
Proof.
  destruct (set_status_loop_frame on (_switch_id self) 5 0 (invalidated w))
    as (v & w1 & Hr & _); [lia|].
  rewrite <- set_status_unfold in Hr.
  destruct on; unfold turn_on, turn_off, bind, ret; rewrite Hr; reflexivity.
Qed.


End CallShapes.

(** ** The attributes, further *)

(** X11. When [device_state_attributes] returns, the dict has an entry
    for exactly the configured keys (a key is configured when it is
    neither [None] nor empty), in the order current, consumption,
    voltage; an entity with no key configured gets the empty dict. *)
Theorem attributes_cover_configured_keys (self : TuyaDevice)
        (attrs : list (attr_name * pyval)) :
  device_state_attributes self = Returned attrs ->
  map fst attrs = configured_attrs self.
Proof.
  unfold device_state_attributes, configured_attrs.
  destruct (configured (_attr_current self)) as [kc|];
    destruct (configured (_attr_consumption self)) as [kp|];
    destruct (configured (_attr_voltage self)) as [kv|];
    repeat match goal with
           | |- context [dps_item ?s ?k] => destruct (dps_item s k) as [?v|?e]
           | |- context [div10 ?v] => destruct (div10 v) as [?x|?e]
           | _ => progress cbn [obind]
           end;
    intros H; try discriminate H; injection H as <-; reflexivity.
Qed.

(** X12. Before the first refresh that succeeds, [_status] is [None]:
    reading the attributes then raises [TypeError] as soon as one
    attribute key is configured, and returns the empty dict when none
    is. *)
Theorem attributes_before_first_refresh (self : TuyaDevice) :
  _status self = PyNone ->
  match configured_attrs self with
  | [] => device_state_attributes self = Returned []
  | _ :: _ => device_state_attributes self = Raised TypeError
  end.
Proof.
  intros Hs. unfold device_state_attributes, configured_attrs.
  rewrite Hs.
  destruct (configured (_attr_current self)) as [kc|];
    destruct (configured (_attr_consumption self)) as [kp|];
    destruct (configured (_attr_voltage self)) as [kv|]; reflexivity.
Qed.

(** X13. For a report that has all three configured keys, with
    multiples of 5 of magnitude at most 2^53 under the consumption and
    the voltage key (the readings whose tenth a binary float holds
    exactly), the attributes are: the current exactly as reported,
    whatever its type, and the consumption and the voltage each the
    float that, times ten, is the reported number. *)
Theorem attributes_scale_by_ten (self : TuyaDevice)
        (report dps : list (string * pyval)) (kc kp kv : string)
        (c : pyval) (p v : Z) :
  _status self = PyDict report ->
  dict_get report "dps" = Some (PyDict dps) ->
  configured (_attr_current self) = Some kc ->
  configured (_attr_consumption self) = Some kp ->
  configured (_attr_voltage self) = Some kv ->
  dict_get dps kc = Some c ->
  dict_get dps kp = Some (PyInt p) ->
  dict_get dps kv = Some (PyInt v) ->
  (5 | p)%Z -> (Z.abs p <= 2 ^ 53)%Z ->
  (5 | v)%Z -> (Z.abs v <= 2 ^ 53)%Z ->
  exists qp qv : Q,
    device_state_attributes self
    = Returned [(ATTR_CURRENT, c);
                (ATTR_CURRENT_CONSUMPTION, PyFloat qp);
                (ATTR_VOLTAGE, PyFloat qv)]
    /\ (qp * 10 == inject_Z p)%Q
    /\ (qv * 10 == inject_Z v)%Q.
Proof.
  intros Hs Hd Hc Hp Hv Hkc Hkp Hkv _ _ _ _.
  assert (forall k x, dict_get dps k = Some x ->
                      dps_item (_status self) k = Returned x) as Hitem.
  { intros k x Hk. rewrite Hs. unfold dps_item, getitem.
    rewrite Hd, Hk. reflexivity. }
  exists (Qred (inject_Z p / 10)), (Qred (inject_Z v / 10)).
  split; [|split].
  - unfold device_state_attributes. rewrite Hc, Hp, Hv.
    rewrite (Hitem _ _ Hkc), (Hitem _ _ Hkp), (Hitem _ _ Hkv). reflexivity.
  - rewrite Qred_correct. field.
  - rewrite Qred_correct. field.
Qed.

(** X14. A value that is not a number (a string, a dict, [None]) under
    the consumption or the voltage key makes the attribute read raise:
    the division by ten is not guarded. *)
Theorem attributes_reject_non_numbers (self : TuyaDevice) (k : string)
        (x : pyval) :
  configured (_attr_consumption self) = Some k
  \/ configured (_attr_voltage self) = Some k ->
  dps_item (_status self) k = Returned x ->
  div10 x = Raised TypeError ->
  exists e : exn, device_state_attributes self = Raised e.
Proof.
  intros Hcfg Hx Hdiv. unfold device_state_attributes.
  match goal with
  | |- context [obind ?first _] => destruct first as [a1|e1]
  end; [| eexists; reflexivity].
  cbn [obind]. destruct Hcfg as [Hc|Hc].
  - rewrite Hc, Hx. cbn [obind]. rewrite Hdiv. eexists. reflexivity.
  - match goal with
    | |- context [obind ?second _] => destruct second as [a2|e2]
    end; [| eexists; reflexivity].
    cbn [obind]. rewrite Hc, Hx. cbn [obind]. rewrite Hdiv.
    eexists. reflexivity.
Qed.

(** ** unique_id *)

Lemma append_cancel_l (p a b : string) :
  (p ++ a)%string = (p ++ b)%string -> a = b.
Proof.
  induction p as [|ch p IH]; intros H; [exact H|].
  simpl in H. injection H as H. exact (IH H).
Qed.

(** X15. Two entities of one device have the same [unique_id] exactly
    when they have the same switch id. *)
Theorem unique_id_separates_switches (device_id : string)
        (self other : TuyaDevice) :
  unique_id device_id self = unique_id device_id other
  <-> _switch_id self = _switch_id other.
Proof.
  unfold unique_id. split.
  - intros H. do 3 apply append_cancel_l in H. exact H.
  - intros ->. reflexivity.
Qed.

(** ** async_setup_entry *)

Section SetupFacts.

Variable key_name : conf_key -> string.

Lemma new_switch_built (device_config : list (conf_key * string))
      (switch : TuyaDevice * TuyaCache) :
  new_switch key_name device_config = Returned switch ->
  built_from device_config switch.
Proof.
  unfold new_switch, config_item.
  destruct (config_get device_config CONF_FRIENDLY_NAME) as [fn|] eqn:Hfn;
    [|discriminate].
  destruct (config_get device_config CONF_ID) as [id|] eqn:Hid;
    [|discriminate].
  cbn [obind]. intros H. injection H as <-.
  unfold built_from. cbn. rewrite Hfn, Hid. repeat split.
Qed.

Lemma new_switch_complete (device_config : list (conf_key * string)) :
  is_Some (config_get device_config CONF_FRIENDLY_NAME) ->
  is_Some (config_get device_config CONF_ID) ->
  exists switch, new_switch key_name device_config = Returned switch.
Proof.
  intros [fn Hfn] [id Hid]. unfold new_switch, config_item.
  rewrite Hfn, Hid. eexists. reflexivity.
Qed.


Lemma setup_loop_builds (entities : list (list (conf_key * string))) :
  forall acc switches : list (TuyaDevice * TuyaCache),
    setup_loop key_name entities acc = Returned switches ->
    exists new,
      switches = acc ++ new /\ Forall2 built_from entities new.
Proof.
  induction entities as [|c rest IH]; intros acc switches H.
  - injection H as <-. exists []. rewrite app_nil_r. split; constructor.
  - cbn [setup_loop] in H.
    destruct (new_switch key_name c) as [s|e] eqn:Hc; [|discriminate].
    cbn [obind] in H. destruct (IH _ _ H) as (new & -> & Hall).
    exists (s :: new). rewrite <- app_assoc. split; [reflexivity|].
    constructor; [exact (new_switch_built _ _ Hc) | exact Hall].
Qed.

Lemma setup_loop_complete (entities : list (list (conf_key * string))) :
  Forall (fun c => is_Some (config_get c CONF_FRIENDLY_NAME)
                   /\ is_Some (config_get c CONF_ID)) entities ->
  forall acc, exists switches,
      setup_loop key_name entities acc = Returned switches.
Proof.
  induction 1 as [|c rest [Hfn Hid] _ IH]; intros acc.
  - exists acc. reflexivity.
  - cbn [setup_loop].
    destruct (new_switch_complete c Hfn Hid) as [s ->]. cbn [obind].
    apply IH.
Qed.


(** X16. With nothing to set up, [async_setup_entry] returns without
    adding entities. Otherwise, when every configuration has a friendly
    name and a switch id, it adds one entity per configuration, in
    order: each carries the configured name, id and attribute keys (a
    key that is not configured is [None]), is unavailable with no state
    and no report, and refers to a cache of its own, still empty. *)
Theorem async_setup_entry_builds_entities
        (entities_to_setup : list (list (conf_key * string))) :
  async_setup_entry key_name [] = Returned None
  /\ (entities_to_setup <> [] ->
      Forall (fun c => is_Some (config_get c CONF_FRIENDLY_NAME)
                       /\ is_Some (config_get c CONF_ID)) entities_to_setup ->
      exists switches,
        async_setup_entry key_name entities_to_setup = Returned (Some switches)
        /\ Forall2 built_from entities_to_setup switches).
Proof.
  split; [reflexivity|]. intros Hne Hall.
  destruct entities_to_setup as [|c rest]; [congruence|].
  unfold async_setup_entry.
  destruct (setup_loop_complete _ Hall []) as [switches Hs].
  rewrite Hs. cbn [obind]. exists switches. split; [reflexivity|].
  destruct (setup_loop_builds _ _ _ Hs) as (new & -> & Hb). exact Hb.
Qed.


End SetupFacts.

(** ** The entities of one device *)

Lemma async_setup_entry_built (key_name : conf_key -> string)
      (entities : list (list (conf_key * string)))
      (switches : list (TuyaDevice * TuyaCache)) :
  async_setup_entry key_name entities = Returned (Some switches) ->
  Forall2 built_from entities switches.
Proof.
  unfold async_setup_entry. destruct entities as [|c rest]; [discriminate|].
  destruct (setup_loop key_name (c :: rest) []) as [sw|e] eqn:Hs;
    [|discriminate].
  cbn [obind]. intros H. injection H as <-.
  destruct (setup_loop_builds _ _ _ _ Hs) as (new & -> & Hb). exact Hb.
Qed.

Lemma built_caches_empty (entities : list (list (conf_key * string)))
      (switches : list (TuyaDevice * TuyaCache)) (i : nat) :
  Forall2 built_from entities switches ->
  (i < length switches)%nat ->
  map snd switches !! i = Some TuyaCache_init.
Proof.
  intros Hb. revert i.
  induction Hb as [|c s cs ss Hcs _ IH]; intros i Hi; [simpl in Hi; lia|].
  destruct i as [|i].
  - simpl. destruct Hcs as (_ & _ & _ & _ & _ & _ & _ & _ & ->). reflexivity.
  - simpl in Hi. apply (IH i). lia.
Qed.

Section PlatformFacts.

Context {Handle : Type} `{!DeviceHandle Handle}.

Lemma leave_lookup_ne (i j : nat) (w : World Handle) (p : Platform Handle) :
  i <> j -> pcaches (leave i w p) !! j = pcaches p !! j.
Proof. intros Hne. unfold leave. cbn [pcaches]. exact (list_lookup_insert_ne _ _ _ _ Hne). Qed.

Lemma leave_lookup_eq (i : nat) (w : World Handle) (p : Platform Handle)
      (c : TuyaCache) :
  pcaches p !! i = Some c -> pcaches (leave i w p) !! i = Some (cache w).
Proof.
  intros Hc. unfold leave. cbn [pcaches].
  apply list_lookup_insert_eq. exact (lookup_lt_Some _ _ _ Hc).
Qed.

(** A command of entity [i] is [set_status] on cache [i]. *)
Lemma entity_command_spec (on : bool) (i : nat) (self : TuyaDevice)
      (p p' : Platform Handle) (r : outcome pyval) :
  (if on then entity_turn_on i self p else entity_turn_off i self p)
  = Some (r, p') ->
  exists w : World Handle,
    enter i p = Some w
    /\ p' = leave i (snd (set_status on (_switch_id self) w)) p.
Proof.
  intros H. unfold entity_turn_on, entity_turn_off in H.
  destruct (enter i p) as [w|]; [|destruct on; discriminate].
  exists w. split; [reflexivity|].
  pose proof (command_spec on self w) as Hc.
  destruct on; cbv beta iota in Hc; rewrite Hc in H;
    injection H as _ <-; reflexivity.
Qed.

(** A refresh served from the memo. *)
Lemma update_memo (now after : Q) (self : TuyaDevice) (w : World Handle) :
  needs_refresh (cache w) now = false ->
  _status (fst (update now after self w)) = _cached_status (cache w)
  /\ snd (update now after self w) = emit EvRelease (emit EvAcquire w).
Proof.
  intros Hn. unfold update. rewrite (status_memo _ _ _ Hn).
  cbn [_status set_status_field _switch_id].
  destruct (dps_item _ _); split; reflexivity.
Qed.

(** X18. A command through one entity empties that entity's cache
    only. A sibling entity of the same device keeps its memo: its next
    [update()], made within 15 seconds of its own last fetch, does not
    ask the device and stores the report from before the command. *)
Theorem sibling_memo_survives_command (on : bool) (i j : nat)
        (self sibling : TuyaDevice) (p p' : Platform Handle)
        (r : outcome pyval) (b : pyval) (t now after : Q) :
  i <> j ->
  pcaches p !! j = Some {| _cached_status := b; _cached_status_time := t |} ->
  truthy b = true ->
  (now - t <= 15)%Q ->
  (if on then entity_turn_on i self p else entity_turn_off i self p)
  = Some (r, p') ->
  pcaches p' !! i = Some TuyaCache_init
  /\ exists (sibling' : TuyaDevice) (p'' : Platform Handle),
      entity_update now after j sibling p' = Some (sibling', p'')
      /\ _status sibling' = b
      /\ pdevice p'' = pdevice p'
      /\ fetches (ptrace p'') = fetches (ptrace p').
Proof.
  intros Hne Hj Hb Ht Hcmd.
  destruct (entity_command_spec _ _ _ _ _ _ Hcmd) as (w & Hw & ->).
  assert (exists c, pcaches p !! i = Some c) as [c Hc].
  { unfold enter in Hw. destruct (pcaches p !! i) as [c|]; [|discriminate].
    exists c. reflexivity. }
  split.
  - rewrite (leave_lookup_eq _ _ _ _ Hc). rewrite set_status_unfold.
    destruct (set_status_loop_frame on (_switch_id self) 5 0 (invalidated w))
      as (v & w1 & Hr & Hcache & _); [lia|].
    rewrite Hr. cbn [snd]. rewrite Hcache. reflexivity.
  - set (w1 := snd (set_status on (_switch_id self) w)).
    unfold entity_update, enter. rewrite (leave_lookup_ne _ _ _ _ Hne), Hj.
    set (wj := mkWorld (pdevice (leave i w1 p))
                       {| _cached_status := b; _cached_status_time := t |}
                       (ptrace (leave i w1 p))).
    assert (needs_refresh (cache wj) now = false) as Hn
        by (apply needs_refresh_fresh; assumption).
    destruct (update_memo now after sibling wj Hn) as [Hst Hw'].
    destruct (update now after sibling wj) as [sibling' w'] eqn:Hu.
    cbn [fst snd] in Hst, Hw'. subst w'.
    eexists _, _. split; [reflexivity|]. split; [exact Hst|].
    split; reflexivity.
Qed.

(** X19. The entities that [async_setup_entry] builds do not share a
    memo: each has its own empty cache, so the first [update()] of one
    entity and then of another each call the device, however close in
    time they are. *)
Theorem entities_do_not_share_memo (key_name : conf_key -> string)
        (entities : list (list (conf_key * string)))
        (switches : list (TuyaDevice * TuyaCache)) (h : Handle)
        (i j : nat) (first second : TuyaDevice) (now1 after1 now2 after2 : Q) :
  async_setup_entry key_name entities = Returned (Some switches) ->
  (i < length switches)%nat ->
  (j < length switches)%nat ->
  i <> j ->
  exists (first' second' : TuyaDevice) (p1 p2 : Platform Handle),
    entity_update now1 after1 i first (platform_of h switches)
    = Some (first', p1)
    /\ entity_update now2 after2 j second p1 = Some (second', p2)
    /\ (1 <= fetches (ptrace p1))%nat
    /\ (fetches (ptrace p1) < fetches (ptrace p2))%nat.
Proof.
  intros Hsetup Hi Hj Hne.
  pose proof (async_setup_entry_built _ _ _ Hsetup) as Hb.
  pose proof (built_caches_empty _ _ i Hb Hi) as Hci.
  pose proof (built_caches_empty _ _ j Hb Hj) as Hcj.
  set (p := platform_of h switches).
  set (wi := mkWorld h TuyaCache_init [] : World Handle).
  assert (enter i p = Some wi) as Hei.
  { unfold enter, p, platform_of. cbn [pcaches pdevice ptrace].
    rewrite Hci. reflexivity. }
  destruct (update now1 after1 first wi) as [first' w1] eqn:Hu1.
  assert (w1 = snd (status now1 after1 wi)) as Hw1
      by (rewrite <- (update_world now1 after1 first wi), Hu1; reflexivity).
  set (p1 := leave i w1 p).
  set (wj := mkWorld (device w1) TuyaCache_init (trace w1)).
  assert (enter j p1 = Some wj) as Hej.
  { unfold enter, p1. rewrite (leave_lookup_ne _ _ _ _ Hne).
    unfold p, platform_of. cbn [pcaches]. rewrite Hcj. reflexivity. }
  destruct (update now2 after2 second wj) as [second' w2] eqn:Hu2.
  assert (w2 = snd (status now2 after2 wj)) as Hw2
      by (rewrite <- (update_world now2 after2 second wj), Hu2; reflexivity).
  exists first', second', p1, (leave j w2 p1).
  split; [unfold entity_update; rewrite Hei, Hu1; reflexivity|].
  split; [unfold entity_update; rewrite Hej, Hu2; reflexivity|].
  assert (fetches (trace wi) < fetches (trace w1))%nat as H1.
  { rewrite Hw1. apply status_fetches_iff. reflexivity. }
  assert (fetches (trace wj) < fetches (trace w2))%nat as H2.
  { rewrite Hw2. apply status_fetches_iff. reflexivity. }
  cbn [leave ptrace p1]. cbn [trace wi wj] in H1, H2.
  split; [unfold fetches in H1 at 1; simpl in H1; lia | exact H2].
Qed.

End PlatformFacts.

(** ** Several callers: the lock is not lost, and every call ends *)

Lemma holder_inv_goto (t : nat) (p q : Threads.pc) (s : Threads.sys) :
  Threads.threads s !! t = Some p ->
  holder_inv s ->
  (Threads.in_region p = true -> Threads.in_region q = true) ->
  holder_inv (Threads.goto t q s).
Proof.
  intros Hp Hinv Hq t0 Hl. cbn [Threads.goto Threads.lock] in Hl.
  destruct (Hinv t0 Hl) as (p0 & Hp0 & Hr0).
  destruct (Nat.eq_dec t t0) as [<-|Hne].
  - exists q. split; [exact (goto_lookup_eq _ _ _ _ Hp)|].
    apply Hq. congruence.
  - exists p0. split; [|exact Hr0].
    rewrite (goto_lookup_ne _ _ _ _ Hne). exact Hp0.
Qed.

Lemma holder_inv_with_shared (c : TuyaCache) (s : Threads.sys) :
  holder_inv s -> holder_inv (Threads.with_shared c s).
Proof. intros Hinv t Hl. exact (Hinv t Hl). Qed.

Ltac holder_step Hp Hinv :=
  apply (holder_inv_goto _ _ _ _ Hp);
  [ try apply holder_inv_with_shared; exact Hinv
  | intros Hr; first [ reflexivity | discriminate Hr ] ].

Lemma step_holder_inv (t : nat) (i : Threads.input) (s s' : Threads.sys) :
  holder_inv s -> Threads.step t i s = Some s' -> holder_inv s'.
Proof.
  intros Hinv Hstep. unfold Threads.step in Hstep.
  destruct (Threads.threads s !! t) as [p|] eqn:Hp; [|discriminate].
  destruct p.
  - destruct (Threads.lock s) eqn:Hl; [discriminate|].
    injection Hstep as <-. intros t0 Hl0.
    cbn [Threads.goto Threads.lock Threads.with_lock] in Hl0.
    injection Hl0 as <-. exists Threads.StatusTest.
    split; [|reflexivity].
    exact (goto_lookup_eq t Threads.StatusAcquire _
             (Threads.with_lock (Some t) s) Hp).
  - destruct (needs_refresh _ _); injection Hstep as <-; holder_step Hp Hinv.
  - injection Hstep as <-. holder_step Hp Hinv.
  - destruct (i0 <? 5)%nat; injection Hstep as <-; holder_step Hp Hinv.
  - destruct (Threads.reply i); injection Hstep as <-; holder_step Hp Hinv.
  - destruct (i0 + 1 =? 3)%nat; injection Hstep as <-; holder_step Hp Hinv.
  - injection Hstep as <-. holder_step Hp Hinv.
  - injection Hstep as <-. holder_step Hp Hinv.
  - injection Hstep as <-. holder_step Hp Hinv.
  - injection Hstep as <-. intros t0 Hl0. discriminate Hl0.
  - injection Hstep as <-. holder_step Hp Hinv.
  - injection Hstep as <-. holder_step Hp Hinv.
  - destruct (i0 <? 5)%nat; injection Hstep as <-; holder_step Hp Hinv.
  - destruct (Threads.reply i); injection Hstep as <-; holder_step Hp Hinv.
  - destruct (i0 + 1 =? 3)%nat; injection Hstep as <-; holder_step Hp Hinv.
  - discriminate.
Qed.

Lemma run_holder_inv (sched : list (nat * Threads.input)) :
  forall s s' : Threads.sys,
    holder_inv s -> Threads.run sched s = Some s' -> holder_inv s'.
Proof.
  induction sched as [|[t i] rest IH]; intros s s' Hinv Hrun.
  - injection Hrun as <-. exact Hinv.
  - simpl in Hrun. destruct (Threads.step t i s) as [s1|] eqn:Hstep;
      [|discriminate].
    exact (IH _ _ (step_holder_inv _ _ _ _ Hinv Hstep) Hrun).
Qed.

Lemma start_holder_inv (c : TuyaCache) (calls : list Threads.call) :
  holder_inv (Threads.start c calls).
Proof. intros t Hl. discriminate Hl. Qed.

(** X20. Under any schedule of any number of callers, whoever holds
    the lock is a thread between the [acquire] and the [release] of its
    own [status()] call; so once every call has finished, the lock is
    free again. *)
Theorem lock_is_never_lost (c : TuyaCache) (calls : list Threads.call)
        (sched : list (nat * Threads.input)) (s : Threads.sys) :
  Threads.run sched (Threads.start c calls) = Some s ->
  (forall t : nat,
      Threads.lock s = Some t ->
      exists p : Threads.pc,
        Threads.threads s !! t = Some p /\ Threads.in_region p = true)
  /\ (Forall (fun p => is_finished p = true) (Threads.threads s) ->
      Threads.lock s = None).
Proof.
  intros Hrun.
  pose proof (run_holder_inv _ _ _ (start_holder_inv c calls) Hrun) as Hinv.
  split; [exact Hinv|]. intros Hfin.
  destruct (Threads.lock s) as [t|] eqn:Hl; [|reflexivity].
  destruct (Hinv t Hl) as (p & Hp & Hr).
  rewrite Forall_lookup in Hfin. specialize (Hfin _ _ Hp).
  destruct p; discriminate.
Qed.

Lemma step_in_region (t : nat) (i : Threads.input) (s : Threads.sys)
      (p : Threads.pc) :
  Threads.threads s !! t = Some p ->
  Threads.in_region p = true ->
  is_Some (Threads.step t i s).
Proof.
  intros Hp Hr. unfold Threads.step. rewrite Hp.
  destruct p; try discriminate Hr;
    repeat match goal with
           | |- context [if ?b then _ else _] => destruct b
           | |- context [match Threads.reply i with _ => _ end] =>
               destruct (Threads.reply i)
           end; eexists; reflexivity.
Qed.

Lemma step_unlocked (t : nat) (i : Threads.input) (s : Threads.sys)
      (p : Threads.pc) :
  Threads.threads s !! t = Some p ->
  is_finished p = false ->
  Threads.lock s = None ->
  is_Some (Threads.step t i s).
Proof.
  intros Hp Hf Hl. unfold Threads.step. rewrite Hp.
  destruct p; try discriminate Hf; try rewrite Hl;
    repeat match goal with
           | |- context [if ?b then _ else _] => destruct b
           | |- context [match Threads.reply i with _ => _ end] =>
               destruct (Threads.reply i)
           end; eexists; reflexivity.
Qed.

(** X21. The callers of one cache never deadlock: under any schedule,
    as long as some call has not finished there is a thread that can
    take its next step, whatever the clock and the handle do. *)
Theorem some_caller_can_move (c : TuyaCache) (calls : list Threads.call)
        (sched : list (nat * Threads.input)) (s : Threads.sys) :
  Threads.run sched (Threads.start c calls) = Some s ->
  Exists (fun p => is_finished p = false) (Threads.threads s) ->
  exists t : nat, forall i : Threads.input, is_Some (Threads.step t i s).
Proof.
  intros Hrun Hex.
  pose proof (run_holder_inv _ _ _ (start_holder_inv c calls) Hrun) as Hinv.
  destruct (Threads.lock s) as [t|] eqn:Hl.
  - destruct (Hinv t Hl) as (p & Hp & Hr).
    exists t. intros i. exact (step_in_region _ _ _ _ Hp Hr).
  - apply Exists_exists in Hex. destruct Hex as (p & Hin & Hf).
    apply list_elem_of_lookup in Hin. destruct Hin as [t Hp].
    exists t. intros i. exact (step_unlocked _ _ _ _ Hp Hf Hl).
Qed.

Lemma list_sum_insert (l : list Threads.pc) :
  forall (t : nat) (p q : Threads.pc),
    l !! t = Some p ->
    (list_sum (map steps_left (<[t := q]> l)) + steps_left p
     = list_sum (map steps_left l) + steps_left q)%nat.
Proof.
  induction l as [|x l IH]; intros t p q Hp; [discriminate|].
  destruct t as [|t].
  - injection Hp as ->. simpl. lia.
  - simpl in Hp. simpl. specialize (IH t p q Hp).
    change (map steps_left (<[t:=q]> l)) with (steps_left <$> <[t:=q]> l) in *.
    lia.
Qed.

Lemma goto_steps_left (t : nat) (p q : Threads.pc) (s : Threads.sys) :
  Threads.threads s !! t = Some p ->
  (steps_left q < steps_left p)%nat ->
  (total_steps_left (Threads.goto t q s) < total_steps_left s)%nat.
Proof.
  intros Hp Hlt. unfold total_steps_left, Threads.goto. cbn [Threads.threads].
  pose proof (list_sum_insert _ _ _ q Hp). lia.
Qed.

Ltac fewer_steps Hp :=
  apply (goto_steps_left _ _ _ _ Hp); cbn [steps_left];
  repeat match goal with
         | |- context [(?a <=? ?b)%nat] => destruct (Nat.leb_spec a b)
         end; lia.

(** Every step of a thread brings it nearer to the end of its call. *)
Lemma step_steps_left (t : nat) (i : Threads.input) (s s' : Threads.sys) :
  Threads.step t i s = Some s' ->
  (total_steps_left s' < total_steps_left s)%nat.
Proof.
  intros Hstep. unfold Threads.step in Hstep.
  destruct (Threads.threads s !! t) as [p|] eqn:Hp; [|discriminate].
  destruct p.
  - destruct (Threads.lock s); [discriminate|]. injection Hstep as <-.
    change (total_steps_left s)
      with (total_steps_left (Threads.with_lock (Some t) s)).
    fewer_steps Hp.
  - destruct (needs_refresh _ _); injection Hstep as <-; fewer_steps Hp.
  - injection Hstep as <-. fewer_steps Hp.
  - destruct (Nat.ltb_spec i0 5); injection Hstep as <-; fewer_steps Hp.
  - destruct (Threads.reply i); injection Hstep as <-; fewer_steps Hp.
  - destruct (Nat.eqb_spec (i0 + 1) 3); injection Hstep as <-; fewer_steps Hp.
  - injection Hstep as <-.
    match goal with
    | |- (total_steps_left (Threads.goto _ _ ?s1) < _)%nat =>
        change (total_steps_left s) with (total_steps_left s1)
    end. fewer_steps Hp.
  - injection Hstep as <-.
    match goal with
    | |- (total_steps_left (Threads.goto _ _ ?s1) < _)%nat =>
        change (total_steps_left s) with (total_steps_left s1)
    end. fewer_steps Hp.
  - injection Hstep as <-. fewer_steps Hp.
  - injection Hstep as <-.
    change (total_steps_left s)
      with (total_steps_left (Threads.with_lock None s)).
    fewer_steps Hp.
  - injection Hstep as <-.
    match goal with
    | |- (total_steps_left (Threads.goto _ _ ?s1) < _)%nat =>
        change (total_steps_left s) with (total_steps_left s1)
    end. fewer_steps Hp.
  - injection Hstep as <-.
    match goal with
    | |- (total_steps_left (Threads.goto _ _ ?s1) < _)%nat =>
        change (total_steps_left s) with (total_steps_left s1)
    end. fewer_steps Hp.
  - destruct (Nat.ltb_spec i0 5); injection Hstep as <-; fewer_steps Hp.
  - destruct (Threads.reply i); injection Hstep as <-; fewer_steps Hp.
  - destruct (Nat.eqb_spec (i0 + 1) 3); injection Hstep as <-; fewer_steps Hp.
  - discriminate.
Qed.

Lemma run_steps_left (sched : list (nat * Threads.input)) :
  forall s s' : Threads.sys,
    Threads.run sched s = Some s' ->
    (length sched + total_steps_left s' <= total_steps_left s)%nat.
Proof.
  induction sched as [|[t i] rest IH]; intros s s' Hrun.
  - injection Hrun as <-. simpl. lia.
  - simpl in Hrun. destruct (Threads.step t i s) as [s1|] eqn:Hstep;
      [|discriminate].
    pose proof (step_steps_left _ _ _ _ Hstep).
    pose proof (IH _ _ Hrun). simpl. lia.
Qed.

Lemma start_steps_left (c : TuyaCache) (calls : list Threads.call) :
  (total_steps_left (Threads.start c calls) <= 15 * length calls)%nat.
Proof.
  unfold total_steps_left, Threads.start. cbn [Threads.threads].
  induction calls as [|[|st sw] calls IH]; simpl in *; lia.
Qed.

(** X22. Every call ends: whatever the schedule, the clock and the
    handle do, [n] callers of one cache take at most [15 n] steps
    between them, so no retry loop runs for ever. *)
Theorem every_call_ends (c : TuyaCache) (calls : list Threads.call)
        (sched : list (nat * Threads.input)) (s : Threads.sys) :
  Threads.run sched (Threads.start c calls) = Some s ->
  (length sched <= 15 * length calls)%nat.
Proof.
  intros Hrun. pose proof (run_steps_left _ _ _ Hrun).
  pose proof (start_steps_left c calls). lia.
Qed.

(** ** The further theorems at work *)

(** The handle of [w_unplugged] times out; what comes out is the
    [ConnectionError]. *)
Lemma status_raises_connection_error_only_witness :
  status 200 201 w_unplugged
  = (Raised msg_update, snd (status 200 201 w_unplugged))
  /\ msg_update = ConnectionError "Failed to update status ."
  /\ needs_refresh (cache w_unplugged) 200 = true
  /\ fetches (trace (snd (status 200 201 w_unplugged)))
     = (fetches (trace w_unplugged) + 3)%nat.
Proof.
  assert (status 200 201 w_unplugged
          = (Raised msg_update, snd (status 200 201 w_unplugged))) as Hs
    by reflexivity.
  destruct (status_raises_connection_error_only 200 201 w_unplugged
              (snd (status 200 201 w_unplugged)) msg_update Hs)
    as (He & Hn & _ & Hf).
  split; [exact Hs|]. split; [exact He|]. split; [exact Hn | exact Hf].
Defined.

(** Two time-outs and an answer: 2.5 seconds asleep; three time-outs:
    3.5 seconds. *)
Lemma status_sleep_budget_witness :
  (slept (trace (snd (status 100 101 w_two_timeouts)))
   == slept (trace w_two_timeouts) + 0.5 + inject_Z (Z.of_nat 2))%Q
  /\ (slept (trace (snd (status 100 101 w_three_timeouts)))
      == slept (trace w_three_timeouts) + 3.5)%Q.
Proof.
  split.
  - apply (proj1 (proj2 (status_sleep_budget 100 101 w_two_timeouts))
             2%nat (mkScript [Returned blob1] []) (mkScript [] []) blob1).
    + reflexivity.
    + lia.
    + reflexivity.
    + reflexivity.
  - apply (proj2 (proj2 (status_sleep_budget 100 101 w_three_timeouts))
             (mkScript [Returned blob1] [])).
    + reflexivity.
    + reflexivity.
Defined.

(** An empty report is fetched again one second later. *)
Lemma status_empty_report_not_memoized_witness :
  status 100 101 w_empty_report
  = (Returned (PyDict []), snd (status 100 101 w_empty_report))
  /\ truthy (PyDict []) = false
  /\ (fetches (trace (snd (status 100 101 w_empty_report)))
      < fetches (trace (snd (status 102 103
                               (snd (status 100 101 w_empty_report))))))%nat.
Proof.
  assert (status 100 101 w_empty_report
          = (Returned (PyDict []), snd (status 100 101 w_empty_report))) as Hs
    by reflexivity.
  split; [exact Hs|]. split; [reflexivity|].
  exact (proj2 (status_empty_report_not_memoized 100 101 w_empty_report
                  (snd (status 100 101 w_empty_report)) (PyDict [])
                  eq_refl Hs eq_refl) 102%Q 103%Q).
Defined.

(** One refusal, then the handle's acknowledgement comes back. *)
Lemma set_status_forwards_reply_witness :
  write_fails true "1" 1 (device w_acknowledging)
  = Some (mkScript [Returned steady_report] [Returned (PyStr "ack")])
  /\ fst (set_status true "1" w_acknowledging) = Returned (PyStr "ack")
  /\ writes (trace (snd (set_status true "1" w_acknowledging)))
     = (writes (trace w_acknowledging) + 1 + 1)%nat
  /\ logged_errors (trace (snd (set_status true "1" w_acknowledging)))
     = logged_errors (trace w_acknowledging).
Proof.
  split; [reflexivity|].
  destruct (set_status_forwards_reply true "1" w_acknowledging 1%nat
              (mkScript [Returned steady_report] [Returned (PyStr "ack")])
              (mkScript [Returned steady_report] [])
              (PyStr "ack") ltac:(lia) eq_refl eq_refl)
    as (Hr & _ & Hw & Hl).
  split; [exact Hr|]. split; [exact Hw | exact Hl].
Defined.

(** The USB plug (switch id 7) meets a report without data point 7. *)
Lemma update_keeps_report_without_switch_witness :
  status 100 101 (scripted [Returned blob1] [] TuyaCache_init)
  = (Returned blob1,
     snd (status 100 101 (scripted [Returned blob1] [] TuyaCache_init)))
  /\ dps_item blob1 (_switch_id plug_usb) = Raised (KeyError "7")
  /\ _available (fst (update 100 101 plug_usb
                        (scripted [Returned blob1] [] TuyaCache_init))) = false
  /\ _status (fst (update 100 101 plug_usb
                     (scripted [Returned blob1] [] TuyaCache_init))) = blob1
  /\ _state (fst (update 100 101 plug_usb
                    (scripted [Returned blob1] [] TuyaCache_init)))
     = PyBool true.
Proof.
  assert (status 100 101 (scripted [Returned blob1] [] TuyaCache_init)
          = (Returned blob1,
             snd (status 100 101 (scripted [Returned blob1] [] TuyaCache_init))))
    as Hs by reflexivity.
  assert (dps_item blob1 (_switch_id plug_usb) = Raised (KeyError "7")) as He
    by reflexivity.
  destruct (update_keeps_report_without_switch 100 101 plug_usb
              (scripted [Returned blob1] [] TuyaCache_init)
              (snd (status 100 101 (scripted [Returned blob1] [] TuyaCache_init)))
              blob1 (KeyError "7") Hs He) as (_ & Ha & Hst & Hstate).
  split; [exact Hs|]. split; [exact He|].
  split; [exact Ha|]. split; [exact Hst | exact Hstate].
Defined.


Lemma attributes_cover_configured_keys_witness :
  device_state_attributes plug1_on
  = Returned [(ATTR_CURRENT, PyInt 120);
              (ATTR_CURRENT_CONSUMPTION, PyFloat (Qred 30.5));
              (ATTR_VOLTAGE, PyFloat (Qred 230.0))]
  /\ map fst [(ATTR_CURRENT, PyInt 120);
              (ATTR_CURRENT_CONSUMPTION, PyFloat (Qred 30.5));
              (ATTR_VOLTAGE, PyFloat (Qred 230.0))]
     = configured_attrs plug1_on.
Proof.
  split; [reflexivity|].
  exact (attributes_cover_configured_keys plug1_on _ eq_refl).
Defined.

(** The sample plug before its first refresh. *)
Lemma attributes_before_first_refresh_witness :
  _status plug1 = PyNone
  /\ device_state_attributes plug1 = Raised TypeError.
Proof.
  split; [reflexivity|].
  exact (attributes_before_first_refresh plug1 eq_refl).
Defined.

Lemma attributes_scale_by_ten_witness :
  (5 | 305)%Z /\ (Z.abs 305 <= 2 ^ 53)%Z
  /\ (5 | 2300)%Z /\ (Z.abs 2300 <= 2 ^ 53)%Z
  /\ exists qp qv : Q,
      device_state_attributes plug1_on
      = Returned [(ATTR_CURRENT, PyInt 120);
                  (ATTR_CURRENT_CONSUMPTION, PyFloat qp);
                  (ATTR_VOLTAGE, PyFloat qv)]
      /\ (qp * 10 == inject_Z 305)%Q
      /\ (qv * 10 == inject_Z 2300)%Q.
Proof.
  assert ((5 | 305)%Z) as H1 by (exists 61%Z; reflexivity).
  assert ((Z.abs 305 <= 2 ^ 53)%Z) as H2 by (vm_compute; discriminate).
  assert ((5 | 2300)%Z) as H3 by (exists 460%Z; reflexivity).
  assert ((Z.abs 2300 <= 2 ^ 53)%Z) as H4 by (vm_compute; discriminate).
  split; [exact H1|]. split; [exact H2|]. split; [exact H3|].
  split; [exact H4|].
  exact (attributes_scale_by_ten plug1_on
           [("devId", PyStr "12345678912345671234"); ("dps", dps1)]
           [("1", PyBool true); ("18", PyInt 120);
            ("19", PyInt 305); ("20", PyInt 2300)]
           "18" "19" "20" (PyInt 120) 305 2300
           eq_refl eq_refl eq_refl eq_refl eq_refl eq_refl eq_refl eq_refl
           H1 H2 H3 H4).
Defined.

(** A consumption key that points at a string. *)
Lemma attributes_reject_non_numbers_witness :
  dps_item (_status plug_text_reading) "devId" = Returned (PyStr "30.5")
  /\ div10 (PyStr "30.5") = Raised TypeError
  /\ exists e : exn, device_state_attributes plug_text_reading = Raised e.
Proof.
  split; [reflexivity|]. split; [reflexivity|].
  exact (attributes_reject_non_numbers plug_text_reading "devId" (PyStr "30.5")
           (or_introl eq_refl) eq_refl eq_refl).
Defined.

(** The two switches of the sample configuration. *)
Lemma async_setup_entry_builds_entities_witness :
  [sw01; sw02] <> []
  /\ Forall (fun c => is_Some (config_get c CONF_FRIENDLY_NAME)
                      /\ is_Some (config_get c CONF_ID)) [sw01; sw02]
  /\ exists switches,
      async_setup_entry sample_key_name [sw01; sw02] = Returned (Some switches)
      /\ Forall2 built_from [sw01; sw02] switches.
Proof.
  assert ([sw01; sw02] <> []) as Hne by discriminate.
  assert (Forall (fun c => is_Some (config_get c CONF_FRIENDLY_NAME)
                           /\ is_Some (config_get c CONF_ID)) [sw01; sw02])
    as Hall.
  { repeat constructor; eexists; reflexivity. }
  split; [exact Hne|]. split; [exact Hall|].
  exact (proj2 (async_setup_entry_builds_entities sample_key_name [sw01; sw02])
           Hne Hall).
Defined.


(** The main plug is switched on at 105 s; the USB plug refreshes at
    110 s and still stores the report of 100 s. *)
Lemma sibling_memo_survives_command_witness :
  entity_turn_on 0 plug1_on p_both_fresh
  = Some (Returned PyNone, snd (default (Returned PyNone, p_both_fresh)
                                  (entity_turn_on 0 plug1_on p_both_fresh)))
  /\ exists (sibling' : TuyaDevice) (p'' : Platform Script),
      entity_update 110 111 1 plug_usb
        (snd (default (Returned PyNone, p_both_fresh)
                (entity_turn_on 0 plug1_on p_both_fresh)))
      = Some (sibling', p'')
      /\ _status sibling' = blob1
      /\ fetches (ptrace p'') = 0%nat.
Proof.
  assert (entity_turn_on 0 plug1_on p_both_fresh
          = Some (Returned PyNone,
                  snd (default (Returned PyNone, p_both_fresh)
                         (entity_turn_on 0 plug1_on p_both_fresh)))) as Hcmd
    by reflexivity.
  split; [exact Hcmd|].
  destruct (sibling_memo_survives_command true 0 1 plug1_on plug_usb
              p_both_fresh _ (Returned PyNone) blob1 100 110 111
              ltac:(discriminate) eq_refl eq_refl
              ltac:(apply Qle_bool_iff; reflexivity) Hcmd)
    as (_ & sibling' & p'' & Hu & Hst & _ & Hf).
  exists sibling', p''. split; [exact Hu|]. split; [exact Hst|].
  rewrite Hf. reflexivity.
Defined.

(** The two sample entities refresh one after the other: two fetches. *)
Lemma entities_do_not_share_memo_witness :
  async_setup_entry sample_key_name [sw01; sw02] = Returned (Some sample_switches)
  /\ exists (first' second' : TuyaDevice) (p1 p2 : Platform Script),
      entity_update 100 101 0 plug1 (platform_of h_two_answers sample_switches)
      = Some (first', p1)
      /\ entity_update 101 102 1 plug_usb p1 = Some (second', p2)
      /\ (1 <= fetches (ptrace p1))%nat
      /\ (fetches (ptrace p1) < fetches (ptrace p2))%nat.
Proof.
  assert (async_setup_entry sample_key_name [sw01; sw02]
          = Returned (Some sample_switches)) as Hsetup by reflexivity.
  split; [exact Hsetup|].
  apply (entities_do_not_share_memo sample_key_name [sw01; sw02]
           sample_switches h_two_answers 0 1 plug1 plug_usb 100 101 101 102
           Hsetup).
  - simpl. lia.
  - simpl. lia.
  - discriminate.
Defined.

(** After two steps of the first caller it holds the lock and is
    inside [status()]. *)
Lemma lock_is_never_lost_witness :
  Threads.run [(0%nat, tick); (0%nat, tick)] two_callers
  = Some two_callers_locked
  /\ exists p : Threads.pc,
      Threads.threads two_callers_locked !! 0%nat = Some p
      /\ Threads.in_region p = true.
Proof.
  assert (Threads.run [(0%nat, tick); (0%nat, tick)] two_callers
          = Some two_callers_locked) as Hrun by reflexivity.
  split; [exact Hrun|].
  exact (proj1 (lock_is_never_lost _ _ _ _ Hrun) 0%nat eq_refl).
Defined.

Lemma some_caller_can_move_witness :
  Threads.run [(0%nat, tick); (0%nat, tick)] two_callers
  = Some two_callers_locked
  /\ Exists (fun p => is_finished p = false)
            (Threads.threads two_callers_locked)
  /\ exists t : nat,
      forall i : Threads.input, is_Some (Threads.step t i two_callers_locked).
Proof.
  assert (Threads.run [(0%nat, tick); (0%nat, tick)] two_callers
          = Some two_callers_locked) as Hrun by reflexivity.
  assert (Exists (fun p => is_finished p = false)
                 (Threads.threads two_callers_locked)) as Hex
    by (apply Exists_cons_hd; reflexivity).
  split; [exact Hrun|]. split; [exact Hex|].
  exact (some_caller_can_move _ _ _ _ Hrun Hex).
Defined.

Lemma every_call_ends_witness :
  Threads.run [(0%nat, tick); (0%nat, tick)] two_callers
  = Some two_callers_locked
  /\ (length [(0%nat, tick); (0%nat, tick)] <= 15 * 2)%nat.
Proof.
  assert (Threads.run [(0%nat, tick); (0%nat, tick)] two_callers
          = Some two_callers_locked) as Hrun by reflexivity.
  split; [exact Hrun|].
  exact (every_call_ends _ _ _ _ Hrun).
Defined.
